(** * ChatBot: retrieval core and chat widget

    A shallow embedding of the ChatBot repository.

    - [JS], [Eff]: JavaScript strings (UTF-16 code units) and a small monad
      for code that mutates state and may throw.
    - [ChatApi]: [sendChatMessage] and the two [checkHealth] helpers of the
      frontend API modules.
    - [ChatBot]: the React component's [handleSendMessage].
    - [Gate], [Chunker], [Similarity], [Schema], [VectorStore],
      [Knowledge]: the retrieval core and the [documents] table.  *)

From Stdlib Require Import String Ascii.
From Stdlib Require Import ZArith NArith Bool Lia QArith Reals Lra.
From Stdlib Require Import List Sorted Permutation.
From Stdlib Require Floats Lqa Qreals.
Import ListNotations.

Close Scope Q_scope.

Set Implicit Arguments.

(* ===================================================================== *)
(** ** JavaScript strings *)
(* ===================================================================== *)

Module JS.

(** A JavaScript string is a sequence of UTF-16 code units. *)
Definition jsstring := list N.

(** Literals of the source that are plain ASCII. *)
Definition of_ascii (s : string) : jsstring :=
  map N_of_ascii (list_ascii_of_string s).

(** ECMAScript [WhiteSpace] and [LineTerminator] code points: what
    [String.prototype.trim] removes. *)
Definition isWhiteSpace (c : N) : bool :=
  ((c =? 0x0009) || (c =? 0x000A) || (c =? 0x000B) || (c =? 0x000C) ||
   (c =? 0x000D) || (c =? 0x0020) || (c =? 0x00A0) || (c =? 0x1680) ||
   ((0x2000 <=? c) && (c <=? 0x200A)) ||
   (c =? 0x2028) || (c =? 0x2029) || (c =? 0x202F) || (c =? 0x205F) ||
   (c =? 0x3000) || (c =? 0xFEFF))%N.

Fixpoint trimStart (s : jsstring) : jsstring :=
  match s with
  | c :: s' => if isWhiteSpace c then trimStart s' else s
  | [] => []
  end.

Definition trimEnd (s : jsstring) : jsstring :=
  rev (trimStart (rev s)).

(** [s.trim()] *)
Definition trim (s : jsstring) : jsstring := trimEnd (trimStart s).

(** Truthiness of a string: only the empty string is falsy. *)
Definition truthy (s : jsstring) : bool :=
  match s with [] => false | _ :: _ => true end.

(** Empty, or made of white space only. *)
Definition blank (s : jsstring) : Prop := Forall (fun c => isWhiteSpace c = true) s.

End JS.

(* ===================================================================== *)
(** ** Effects: state and exceptions *)
(* ===================================================================== *)

Module Eff.

(** Errors the frontend code can see. *)
Inductive JSError : Type :=
| NetworkError                       (* fetch rejected: no connection *)
| AbortError                         (* fetch rejected: signal aborted *)
| SyntaxError                        (* response.json() rejected *)
| ApiError (message : JS.jsstring).  (* new Error(message) *)

(** How a block of statements ends. *)
Inductive Completion (A : Type) : Type :=
| Normal (a : A)
| Thrown (e : JSError).
Arguments Thrown {A} e.

Section Monad.
Variable S : Type.

(** A computation over a mutable state [S]; a throw keeps the state
    reached so far. *)
Definition M (A : Type) : Type := S -> Completion A * S.

Definition ret {A} (a : A) : M A := fun s => (Normal a, s).

Definition bind {A B} (m : M A) (k : A -> M B) : M B :=
  fun s =>
    match m s with
    | (Normal a, s') => k a s'
    | (Thrown e, s') => (Thrown e, s')
    end.

Definition throw {A} (e : JSError) : M A := fun s => (Thrown e, s).

Definition modify (f : S -> S) : M unit := fun s => (Normal tt, f s).

(** [try { body } catch (error) { handler error }] *)
Definition try_catch {A} (body : M A) (handler : JSError -> M A) : M A :=
  fun s =>
    match body s with
    | (Normal a, s') => (Normal a, s')
    | (Thrown e, s') => handler e s'
    end.

(** [try { body } finally { cleanup }]: the cleanup always runs; when it
    ends normally the completion of the body stands. *)
Definition try_finally {A} (body : M A) (cleanup : M unit) : M A :=
  fun s =>
    match body s with
    | (c, s') =>
        match cleanup s' with
        | (Normal _, s'') => (c, s'')
        | (Thrown e, s'') => (Thrown e, s'')
        end
    end.
End Monad.

Arguments ret {S A} a.
Arguments throw {S A} e.

Declare Scope eff_scope.
Delimit Scope eff_scope with eff.
Notation "x <- m ;; k" := (bind m (fun x => k))
  (at level 61, m at next level, right associativity) : eff_scope.
Notation "m ;; k" := (bind m (fun _ => k))
  (at level 61, right associativity) : eff_scope.

End Eff.

(* ===================================================================== *)
(** ** The frontend API helpers *)
(* ===================================================================== *)

Module ChatApi.
Import JS Eff.
Local Open Scope eff_scope.

(** *** Message shapes (the interfaces of [frontend/chatbot-api.ts]) *)

Record ChatResponse : Type := {
  response : jsstring;
  confidence_score : Q;
  sources : list jsstring;
  requires_attention : bool;
  conversation_id : jsstring
}.

Record HealthCheck : Type := {
  status : jsstring;
  service : jsstring;
  version : jsstring;
  environment : jsstring;
  database : jsstring
}.

Record HistoryItem : Type := { role : jsstring; content : jsstring }.

(** The JSON body of [POST /chat]. *)
Record ChatRequest : Type := {
  user_message : jsstring;
  user_id : jsstring;
  conversation_history : list HistoryItem
}.

(** *** The network *)

(** What [fetch] settles to when nothing aborts it. *)
Inductive Outcome (A : Type) : Type :=
| Rejected                                   (* no HTTP response at all *)
| Resolved (ok : bool) (statusText : jsstring) (json : option A).
    (* [json = None]: the body does not parse, [response.json()] rejects *)
Arguments Rejected {A}.

(** One reply of the server: when it settles (milliseconds after the
    request) and to what. *)
Record Reply (A : Type) : Type := { latency : N; outcome : Outcome A }.

(** The server, as seen from the browser: the reply to a request, given the
    number of requests issued before it. *)
Record Server : Type := {
  chat : nat -> ChatRequest -> Reply ChatResponse;
  health : nat -> Reply HealthCheck
}.

Inductive Target : Type :=
| PostChat (body : ChatRequest)     (* POST ${API_BASE_URL}/chat *)
| GetHealth.                        (* GET  ${API_BASE_URL}/health *)

Inductive Level : Type := LWarn | LError.

(** Observable effects, in order. [Fetch t (Some ms)] is a request whose
    [AbortController] is aborted by a timer [ms] milliseconds after it was
    armed; the timer is cleared when the request resolves first. *)
Inductive Event : Type :=
| Fetch (t : Target) (abortAfter : option N)
| Sleep (ms : N)                    (* await new Promise(r => setTimeout(r, ms)) *)
| Console (l : Level).              (* console.warn / console.error *)

Record Net : Type := { issued : nat; log : list Event }.

Definition net0 : Net := {| issued := 0; log := [] |}.

Definition emit (e : Event) : M Net unit :=
  modify (fun n => {| issued := issued n; log := log n ++ [e] |}).

(** The object [fetch] resolves to. *)
Record Response (A : Type) : Type := {
  ok : bool;
  statusText : jsstring;
  body : option A
}.

Definition settle {A} (r : Reply A) (abortAfter : option N) : Completion (Response A) :=
  let deliver :=
    match outcome r with
    | Rejected => Thrown NetworkError
    | Resolved o st js => Normal {| ok := o; statusText := st; body := js |}
    end in
  match abortAfter with
  | Some ms => if (ms <=? latency r)%N then Thrown AbortError else deliver
  | None => deliver
  end.

(** [await fetch(url, { signal })] *)
Definition fetch {A} (reply : nat -> Reply A) (t : Target) (abortAfter : option N)
  : M Net (Response A) :=
  fun n =>
    (settle (reply (issued n)) abortAfter,
     {| issued := S (issued n); log := log n ++ [Fetch t abortAfter] |}).

(** [await response.json()] *)
Definition json {A} (r : Response A) : M Net A :=
  match body r with
  | Some v => ret v
  | None => throw SyntaxError
  end.

Definition sleep (ms : N) : M Net unit := emit (Sleep ms).
Definition console (l : Level) : M Net unit := emit (Console l).

(** What a request brings back: the parsed body of a reply that settles
    before the deadline (if there is one) with an OK status and a body that
    parses; [None] for every other reply. *)
Definition answer {A} (deadline : option N) (r : Reply A) : option A :=
  let parsed :=
    match outcome r with
    | Resolved true _ (Some v) => Some v
    | _ => None
    end in
  match deadline with
  | Some ms => if (latency r <? ms)%N then parsed else None
  | None => parsed
  end.

(** The network after the events [evs], [k] of which are requests. *)
Definition after (n : Net) (k : nat) (evs : list Event) : Net :=
  {| issued := k + issued n; log := log n ++ evs |}.

Section WithServer.
Variable server : Server.

(** [sendChatMessage(userMessage, userId, conversationHistory)] *)
Definition sendChatMessage (userMessage userId : jsstring)
           (conversationHistory : list HistoryItem) : M Net ChatResponse :=
  try_catch
    (let req := {| user_message := userMessage;
                   user_id := userId;
                   conversation_history := conversationHistory |} in
     response <- fetch (fun k => chat server k req) (PostChat req) None ;;
     if negb (ok response)
     then throw (ApiError (of_ascii "API Error: " ++ statusText response))
     else json response)
    (fun error => console LError ;; throw error).

End WithServer.

(** *** [frontend/chatbot-api.ts] (and its plain JavaScript twin) *)

Module Ts.
Section WithServer.
Variable server : Server.

(** [checkHealth()]: a single attempt. *)
Definition checkHealth : M Net HealthCheck :=
  try_catch
    (response <- fetch (health server) GetHealth None ;;
     if negb (ok response)
     then throw (ApiError (of_ascii "API is down"))
     else json response)
    (fun error => console LError ;; throw error).

End WithServer.
End Ts.

(** *** The JavaScript helper module whose [checkHealth] retries *)

Module Js.

Definition maxRetries : nat := 3.
Definition retryDelayMs : N := 15000.     (* 15 seconds between retries *)
Definition attemptTimeoutMs : N := 20000. (* 20s timeout per attempt *)

Section WithServer.
Variable server : Server.

(** One turn of the [for] loop. [Some v]: the function returns [v];
    [None]: the turn ends and the loop goes on. *)
Definition attempt_body (attempt : nat) : M Net (option HealthCheck) :=
  try_catch
    (response <- fetch (health server) GetHealth (Some attemptTimeoutMs) ;;
     if negb (ok response)
     then throw (ApiError (of_ascii "API is down"))
     else v <- json response ;; ret (Some v))
    (fun error =>
       console LWarn ;;
       if attempt <? maxRetries
       then sleep retryDelayMs ;; ret None
       else console LError ;; throw error).

(** [for (let attempt = ...; attempt <= maxRetries; attempt++)]; [turns]
    counts the turns the loop may still take, [maxRetries] at the start. *)
Fixpoint retry_loop (turns attempt : nat) : M Net (option HealthCheck) :=
  match turns with
  | O => ret None
  | Datatypes.S turns' =>
      if attempt <=? maxRetries
      then r <- attempt_body attempt ;;
           match r with
           | Some v => ret (Some v)
           | None => retry_loop turns' (Datatypes.S attempt)
           end
      else ret None
  end.

(** [checkHealth()]; [None] stands for leaving the loop without a
    [return], that is for [undefined]. *)
Definition checkHealth : M Net (option HealthCheck) :=
  retry_loop maxRetries 1.

End WithServer.

(** The events of [checkHealth]: a request that is aborted after
    [attemptTimeoutMs], and the wait between two attempts. *)
Definition probe : Event := Fetch GetHealth (Some attemptTimeoutMs).
Definition pause : Event := Sleep retryDelayMs.

(** What attempt number [k] (from 0) of a [checkHealth] started in [n]
    brings back within the time an attempt is given. *)
Definition heard (server : Server) (n : Net) (k : nat) : option HealthCheck :=
  answer (Some attemptTimeoutMs) (health server (k + issued n)).

End Js.

End ChatApi.

(* ===================================================================== *)
(** ** The chat widget: [components/ChatBot.js] *)
(* ===================================================================== *)

Module ChatBot.
Import JS Eff ChatApi.
Local Open Scope eff_scope.

Inductive Sender : Type := user | bot.

(** An entry of the [messages] state. [id] is the number whose decimal
    rendering ([toString()]) the source stores; [timestamp] is the [Date]
    as epoch milliseconds. The bot's answer alone carries [confidence] and
    [sources]. *)
Record Message : Type := {
  id : Z;
  text : jsstring;
  sender : Sender;
  timestamp : Z;
  confidence : option Q;
  msg_sources : option (list jsstring)
}.

(** The [useState] cells of the component. *)
Record ChatState : Type := {
  messages : list Message;
  input : jsstring;
  loading : bool;
  isOnline : bool;
  showChat : bool
}.

(** What a run of the handler can touch: the component state, the submit
    event, the clock (by the number of readings taken) and the network. *)
Record Runtime : Type := {
  comp : ChatState;
  defaultPrevented : bool;
  reads : nat;
  net : Net
}.

(** The surroundings of a run: the system clock, as the sequence of its
    readings, and the server. *)
Record World : Type := { clock : nat -> Z; server : Server }.

Definition setComp (f : ChatState -> ChatState) : M Runtime unit :=
  modify (fun r => {| comp := f (comp r); defaultPrevented := defaultPrevented r;
                      reads := reads r; net := net r |}).

(** [setMessages((prev) => f prev)] *)
Definition setMessages (f : list Message -> list Message) : M Runtime unit :=
  setComp (fun c => {| messages := f (messages c); input := input c;
                       loading := loading c; isOnline := isOnline c;
                       showChat := showChat c |}).

Definition setInput (v : jsstring) : M Runtime unit :=
  setComp (fun c => {| messages := messages c; input := v;
                       loading := loading c; isOnline := isOnline c;
                       showChat := showChat c |}).

Definition setLoading (v : bool) : M Runtime unit :=
  setComp (fun c => {| messages := messages c; input := input c;
                       loading := v; isOnline := isOnline c;
                       showChat := showChat c |}).

(** [e.preventDefault()] *)
Definition preventDefault : M Runtime unit :=
  modify (fun r => {| comp := comp r; defaultPrevented := true;
                      reads := reads r; net := net r |}).

(** [Date.now()] and [new Date()]: one reading of the clock each. *)
Definition readClock (w : World) : M Runtime Z :=
  fun r => (Normal (clock w (reads r)),
            {| comp := comp r; defaultPrevented := defaultPrevented r;
               reads := S (reads r); net := net r |}).

(** Run an API helper on the network part of the runtime. *)
Definition api {A} (m : M Net A) : M Runtime A :=
  fun r =>
    match m (net r) with
    | (c, n') => (c, {| comp := comp r; defaultPrevented := defaultPrevented r;
                        reads := reads r; net := n' |})
    end.

Definition lowConfidenceWarning : jsstring :=
  [0x26A0; 0xFE0F]%N ++
  of_ascii " This answer has low confidence. If it doesn't help, please contact our support team.".

Definition errorText : jsstring :=
  of_ascii "Sorry, I encountered an error. Please try again later.".

(** [m.sender === "user" ? "user" : "assistant"] *)
Definition historyItem (m : Message) : HistoryItem :=
  {| role := match sender m with
             | user => of_ascii "user"
             | bot => of_ascii "assistant"
             end;
     content := text m |}.

(** [!input.trim() || !isOnline] *)
Definition submitRefused (snap : ChatState) : bool :=
  negb (truthy (trim (input snap))) || negb (isOnline snap).

Section Handler.
Variable w : World.
Variable userId : jsstring.

(** The values of the render the handler was created in. *)
Variable snap : ChatState.

Definition addUserMessage : M Runtime unit :=
  now <- readClock w ;;
  date <- readClock w ;;
  let userMessage :=
    {| id := now; text := input snap; sender := user; timestamp := date;
       confidence := None; msg_sources := None |} in
  setMessages (fun prev => prev ++ [userMessage]).

Definition addBotMessage (response : ChatResponse) : M Runtime unit :=
  now <- readClock w ;;
  date <- readClock w ;;
  let botMessage :=
    {| id := now + 1; text := ChatApi.response response; sender := bot;
       timestamp := date;
       confidence := Some (confidence_score response);
       msg_sources := Some (sources response) |} in
  setMessages (fun prev => prev ++ [botMessage]).

Definition addWarningMessage : M Runtime unit :=
  now <- readClock w ;;
  date <- readClock w ;;
  let warningMessage :=
    {| id := now + 2; text := lowConfidenceWarning; sender := bot;
       timestamp := date; confidence := None; msg_sources := None |} in
  setMessages (fun prev => prev ++ [warningMessage]).

Definition addErrorMessage : M Runtime unit :=
  now <- readClock w ;;
  date <- readClock w ;;
  let errorMessage :=
    {| id := now + 1; text := errorText; sender := bot;
       timestamp := date; confidence := None; msg_sources := None |} in
  setMessages (fun prev => prev ++ [errorMessage]).

(** [handleSendMessage(e)] *)
Definition handleSendMessage : M Runtime unit :=
  preventDefault ;;
  if submitRefused snap then ret tt
  else
    addUserMessage ;;
    setInput [] ;;
    setLoading true ;;
    try_finally
      (try_catch
         (response <- api (sendChatMessage (server w) (input snap) userId
                             (map historyItem (messages snap))) ;;
          addBotMessage response ;;
          if requires_attention response
          then addWarningMessage
          else ret tt)
         (fun error => api (console LError) ;; addErrorMessage))
      (setLoading false).

End Handler.

(** The network requests in a log. *)
Definition requests (l : list Event) : list Event :=
  filter (fun e => match e with Fetch _ _ => true | _ => false end) l.

End ChatBot.

(* ===================================================================== *)
(** ** The retrieval core *)
(* ===================================================================== *)

(** Embeddings and relevance scores are binary64 floats, as the [FLOAT8]
    columns of [database/schema.sql] and section 3 of the specification
    have them; the Confidence Gate compares the numbers the scores stand
    for with its thresholds. *)

(** *** Confidence Gate *)

Module Gate.
Local Open Scope R_scope.

(** The Confidence Gate and the Feedback Loop live in the Python backend,
    which is not among the sources; they are modelled from sections 3, 4.5
    and 4.8 of the specification. *)

Inductive Status : Type := open | resolved.

(** A row of [unanswered_queries] ([database/schema.sql]). *)
Record UnansweredQuery : Type := {
  uq_id : nat;
  userQuery : string;
  confidenceScore : option R;       (* FLOAT, nullable *)
  adminResponse : option string;
  status : Status;
  createdAt : Z;
  updatedAt : Z
}.

(** The [unanswered_queries] table; rows are never deleted. *)
Definition Audit := list UnansweredQuery.

(** Modelled from the spec: [recordUnanswered(query, confidence)] of the
    Feedback Loop (4.8), whose code is missing; the new record is open and
    has no admin response. *)
Definition recordUnanswered (now : Z) (query : string) (confidence : option R)
           (log : Audit) : Audit :=
  log ++ [{| uq_id := length log; userQuery := query;
             confidenceScore := confidence; adminResponse := None;
             status := open; createdAt := now; updatedAt := now |}].

(** Modelled from the spec: [resolve(id, adminResponse)] of the Feedback
    Loop (4.8), whose code is missing. *)
Definition resolve (now : Z) (id : nat) (answer : string) (log : Audit) : Audit :=
  map (fun u =>
         if Nat.eqb (uq_id u) id
         then {| uq_id := uq_id u; userQuery := userQuery u;
                 confidenceScore := confidenceScore u;
                 adminResponse := Some answer; status := resolved;
                 createdAt := createdAt u; updatedAt := now |}
         else u) log.

Record Config : Type := { fallbackThreshold : R; answerThreshold : R }.

Definition defaults : Config :=
  {| fallbackThreshold := 0.3; answerThreshold := 0.6 |}.

Inductive Outcome : Type := Answer | AnswerWithWarning | Refuse.

Definition refusalMessage : string := "insufficient information in documents".

Section Gate.
(** What is retrieved: the gate looks at scores only. *)
Variable Item : Type.
Variable sourceOf : Item -> string.

(** Ordered by descending score: the top score comes first. *)
Definition RetrievalResult := list (Item * R).

Definition topScore (r : RetrievalResult) : option R :=
  match r with
  | [] => None
  | (_, s) :: _ => Some s
  end.

(** Modelled from the spec: the decision of the Confidence Gate (4.5),
    whose code is missing. Refuse: empty result or top score below
    [fallbackThreshold]; answer with a warning: top score from
    [fallbackThreshold] up and below [answerThreshold]; answer: otherwise. *)
Definition decide (cfg : Config) (r : RetrievalResult) : Outcome :=
  match topScore r with
  | None => Refuse
  | Some top =>
      if Rlt_dec top (fallbackThreshold cfg) then Refuse
      else if Rlt_dec top (answerThreshold cfg) then AnswerWithWarning
      else Answer
  end.

(** The chat response of section 6, without the conversation id. *)
Record Reply : Type := {
  response : string;
  confidence_score : option R;
  sources : list string;
  requires_attention : bool
}.

(** Prompt Builder and Generator (4.6, 4.7) in one: the prose generated
    for a question from the retrieved items. *)
Variable generate : string -> list Item -> string.

(** Modelled from the spec: the query path after retrieval (2, 4.5), whose
    code is missing: gate, then generation unless the gate refuses; a
    refusal returns the fixed message; a warning or a refusal sets
    [requires_attention] and leaves an [UnansweredQuery]. *)
Definition respond (cfg : Config) (now : Z) (question : string)
           (r : RetrievalResult) (log : Audit) : Reply * Audit :=
  match decide cfg r with
  | Refuse =>
      ({| response := refusalMessage; confidence_score := topScore r;
          sources := []; requires_attention := true |},
       recordUnanswered now question (topScore r) log)
  | AnswerWithWarning =>
      ({| response := generate question (map fst r);
          confidence_score := topScore r;
          sources := map (fun e => sourceOf (fst e)) r;
          requires_attention := true |},
       recordUnanswered now question (topScore r) log)
  | Answer =>
      ({| response := generate question (map fst r);
          confidence_score := topScore r;
          sources := map (fun e => sourceOf (fst e)) r;
          requires_attention := false |},
       log)
  end.
End Gate.

End Gate.

(** *** Chunker *)

Module Chunker.
Local Open Scope nat_scope.

(** The Chunker lives in the Python backend, which is not among the
    sources; it is modelled from section 4.1 of the specification. The
    algorithm is read as three passes. Split at the separators in priority
    order, each separator staying at the end of the piece it closes, until
    every piece fits the room a chunk has beside the overlap it carries,
    [chunkSize - overlap]. Merge adjacent pieces for as long as the chunk,
    with the overlap it carries, stays within [chunkSize]: the first chunk
    carries none, every later one carries [overlap] characters. Give every
    chunk but the first the trailing [overlap] characters of the chunk
    before it as its leading content. So no chunk is longer than
    [chunkSize]. *)

Definition text := list ascii.

(** The separators, by decreasing priority; the hard character cut comes
    last, when none of them helps. *)
Inductive Separator : Type := ParagraphBreak | LineBreak | SentenceEnd | Space.

Definition separators : list Separator :=
  [ParagraphBreak; LineBreak; SentenceEnd; Space].

Definition newline : ascii := "010"%char.

(** Whether separator [sep] ends with character [c], read after [prev]. *)
Definition closes (sep : Separator) (prev : option ascii) (c : ascii) : bool :=
  match sep with
  | ParagraphBreak =>
      match prev with
      | Some p => Ascii.eqb p newline && Ascii.eqb c newline
      | None => false
      end
  | LineBreak => Ascii.eqb c newline
  | SentenceEnd => Ascii.eqb c "." || Ascii.eqb c "!" || Ascii.eqb c "?"
  | Space => Ascii.eqb c " "
  end.

(** Cut [t] after every occurrence of [sep]. *)
Fixpoint pieces (sep : Separator) (prev : option ascii) (t : text) : list text :=
  match t with
  | [] => []
  | c :: t' =>
      if closes sep prev c then [c] :: pieces sep (Some c) t'
      else match pieces sep (Some c) t' with
           | [] => [[c]]
           | p :: ps => (c :: p) :: ps
           end
  end.

Definition splitAt (sep : Separator) (t : text) : list text := pieces sep None t.

(** Hard character cut: [t[0:n], t[n:2n], ...]; [turns] bounds the number
    of cuts. *)
Fixpoint cutEvery (turns n : nat) (t : text) : list text :=
  match turns with
  | O => []
  | S turns' =>
      match t with
      | [] => []
      | _ :: _ => firstn n t :: cutEvery turns' n (skipn n t)
      end
  end.

Definition hardCut (n : nat) (t : text) : list text := cutEvery (length t) n t.

(** Modelled from the spec: the recursive splitting of 4.1, whose code is
    missing. A text that fits [room] is a segment; one that does not is cut
    at the first separator of the list and its parts are split with the
    separators that remain, the hard cut coming last. *)
Fixpoint segments (seps : list Separator) (room : nat) (t : text)
  {struct seps} : list text :=
  if length t <=? room then [t]
  else match seps with
       | [] => hardCut room t
       | sep :: rest => flat_map (segments rest room) (splitAt sep t)
       end.

(** Modelled from the spec: the re-merging of adjacent small segments
    (4.1), whose code is missing; [cur] is the segment being grown, [room]
    what it may grow to and [later] what the segments after it may grow
    to. *)
Fixpoint mergeInto (room later : nat) (cur : text) (segs : list text) : list text :=
  match segs with
  | [] => [cur]
  | s :: rest =>
      if length cur + length s <=? room
      then mergeInto room later (cur ++ s) rest
      else cur :: mergeInto later later s rest
  end.

Definition merge (chunkSize overlap : nat) (segs : list text) : list text :=
  match segs with
  | [] => []
  | s :: rest => mergeInto chunkSize (chunkSize - overlap) s rest
  end.

(** The trailing [n] characters of [t] (all of [t] when it is shorter). *)
Definition trailing (n : nat) (t : text) : text := skipn (length t - n) t.

(** Modelled from the spec: the overlap of 4.1, whose code is missing:
    the trailing [overlap] characters of chunk [i] lead chunk [i+1];
    [prev] is the chunk before. *)
Fixpoint overlapFrom (overlap : nat) (prev : text) (segs : list text) : list text :=
  match segs with
  | [] => []
  | s :: rest =>
      let chunk := trailing overlap prev ++ s in
      chunk :: overlapFrom overlap chunk rest
  end.

Definition addOverlap (overlap : nat) (segs : list text) : list text :=
  match segs with
  | [] => []
  | s :: rest => s :: overlapFrom overlap s rest
  end.

(** The merged segments of a text: the non-overlapping remainders. *)
Definition remainders (seps : list Separator) (chunkSize overlap : nat) (t : text)
  : list text :=
  match t with
  | [] => []
  | _ :: _ => merge chunkSize overlap (segments seps (chunkSize - overlap) t)
  end.

Inductive Result : Type :=
| Chunks (cs : list text)
| ConfigError.

Definition defaultChunkSize : Z := 1000.
Definition defaultOverlap : Z := 200.

(** Modelled from the spec: [split(text, chunkSize, overlap)] (4.1), whose
    code is missing. [overlap] must satisfy [0 <= overlap < chunkSize];
    the empty text has no chunks. *)
Definition split (t : text) (chunkSize overlap : Z) : Result :=
  if ((0 <=? overlap) && (overlap <? chunkSize))%Z
  then Chunks (addOverlap (Z.to_nat overlap)
                 (remainders separators (Z.to_nat chunkSize) (Z.to_nat overlap) t))
  else ConfigError.

(** The reassembly of section 8: strip the leading [overlap] characters of
    every chunk except the first, and concatenate. *)
Definition reassemble (overlap : nat) (chunks : list text) : text :=
  match chunks with
  | [] => []
  | c :: rest => c ++ concat (map (skipn overlap) rest)
  end.

Definition ofString (s : string) : text := list_ascii_of_string s.

(** Chunk [i+1] begins with the trailing [overlap] characters of chunk
    [i]. *)
Fixpoint shares (overlap : nat) (chunks : list text) : Prop :=
  match chunks with
  | c :: (c' :: _) as rest =>
      firstn overlap c' = trailing overlap c /\ shares overlap rest
  | _ => True
  end.

End Chunker.

(** *** Similarity *)

Module Similarity.
Import PrimFloat.
Local Open Scope float_scope.

(** The similarity metric lives in the Python backend, which is not among
    the sources; it is modelled from section 4.3 of the specification, in
    the binary64 arithmetic of the [FLOAT8] components. *)

Definition Vector := list float.

(** [a . b]. The vectors of one store have one dimension; on vectors of
    different lengths the sum runs over the indices they share. *)
Fixpoint dot (a b : Vector) : float :=
  match a, b with
  | x :: a', y :: b' => x * y + dot a' b'
  | _, _ => 0
  end.

Definition norm (a : Vector) : float := sqrt (dot a a).

(** Modelled from the spec: the cosine similarity of 4.3, whose code is
    missing: [cos(a,b) = (a . b) / (|a| |b|)], and 0 when either norm is
    zero. *)
Definition cos (a b : Vector) : float :=
  if norm a =? 0 then 0
  else if norm b =? 0 then 0
  else dot a b / (norm a * norm b).

(** Modelled from the spec: the relevance score of 4.3, whose code is
    missing: [score = (cos + 1) / 2]. *)
Definition score (a b : Vector) : float := (cos a b + 1) / 2.

(** A vector with a component that is not zero. *)
Definition nonzero (a : Vector) : Prop := Exists (fun x => (x =? 0) = false) a.


(** The number a float stands for; an infinity or a NaN stands for no
    number and counts as 0. *)
Definition value (x : float) : Q :=
  match FloatOps.Prim2SF x with
  | SpecFloat.S754_finite negative m e =>
      (inject_Z (if negative then Z.neg m else Z.pos m) * Qpower 2 e)%Q
  | _ => 0%Q
  end.

(** The formulas of 4.3 as the specification writes them, in exact
    arithmetic over the real numbers. *)
Module Exact.
Local Open Scope R_scope.

Definition Vector := list R.

Fixpoint dot (a b : Vector) : R :=
  match a, b with
  | x :: a', y :: b' => x * y + dot a' b'
  | _, _ => 0
  end.

Definition norm (a : Vector) : R := R_sqrt.sqrt (dot a a).

Definition cos (a b : Vector) : R :=
  if Req_dec_T (norm a) 0 then 0
  else if Req_dec_T (norm b) 0 then 0
  else dot a b / (norm a * norm b).

Definition score (a b : Vector) : R := (cos a b + 1) / 2.

Definition nonzero (a : Vector) : Prop := Exists (fun x => x <> 0) a.

End Exact.

End Similarity.

(** *** The [documents] table *)

Module Schema.
Import PrimFloat.

(** A row of the [documents] table of [database/schema.sql]. A column that
    is not declared [NOT NULL] may hold no value. *)
Record Document : Type := {
  id : Z;                                          (* BIGSERIAL PRIMARY KEY *)
  content : string;                                (* TEXT NOT NULL *)
  doc_metadata : option (list (string * string));  (* JSONB *)
  embedding : option (list float);                 (* FLOAT8[] *)
  source : option string;                          (* VARCHAR(255) *)
  doc_type : option string;                        (* VARCHAR(50) *)
  created_at : option Z;                           (* TIMESTAMP *)
  updated_at : option Z                            (* TIMESTAMP *)
}.

(** [VARCHAR(n)] *)
Definition varchar (n : nat) (v : option string) : bool :=
  match v with
  | Some text => (String.length text <=? n)%nat
  | None => true
  end.

(** What the table takes as a new row: the declared column types and the
    primary key. [embedding] is a "Standard Postgres Array", the pgvector
    extension being "Skipped for now": the column declares no length. *)
Definition accepts (table : list Document) (row : Document) : bool :=
  varchar 255 (source row) && varchar 50 (doc_type row) &&
  negb (existsb (fun r => Z.eqb (id r) (id row)) table).

(** [rows] can be added to [table] one after the other. *)
Fixpoint extends (table rows : list Document) : bool :=
  match rows with
  | [] => true
  | row :: rest => accepts table row && extends (table ++ [row]) rest
  end.

(** The states of the table: rows added one at a time to the empty one. *)
Definition valid (table : list Document) : bool := extends [] table.

End Schema.

(** *** Vector Store *)

Module VectorStore.
Import Similarity.

(** The Vector Store lives in the Python backend, which is not among the
    sources; it is modelled from sections 3 and 4.3 of the specification.
    The columns of a chunk follow the [documents] table of
    [database/schema.sql], whose [id] is a [BIGSERIAL]: identities are
    handed out in increasing order. *)

Inductive DocType : Type := faq | news | guide | investment.

Record Chunk : Type := {
  id : nat;
  content : string;
  source : string;
  docType : DocType;
  embedding : Vector;
  metadata : list (string * string);
  createdAt : Z
}.

(** What [insert] is given: a chunk that has no identity yet. *)
Record Draft : Type := {
  d_content : string;
  d_source : string;
  d_docType : DocType;
  d_embedding : Vector;
  d_metadata : list (string * string)
}.

(** The rows, in insertion order, and the next value of the sequence. *)
Record Store : Type := { rows : list Chunk; nextId : nat }.

Definition empty : Store := {| rows := []; nextId := 1 |}.

Definition persist (i : nat) (now : Z) (d : Draft) : Chunk :=
  {| id := i; content := d_content d; source := d_source d;
     docType := d_docType d; embedding := d_embedding d;
     metadata := d_metadata d; createdAt := now |}.

(** The dedup key: the literal [(source, content)] pair. *)
Definition samePair (d : Draft) (c : Chunk) : bool :=
  String.eqb (source c) (d_source d) && String.eqb (content c) (d_content d).

(** Modelled from the spec: [insert(chunk)] (4.3), whose code is missing.
    It gives the identity of the chunk and the store after; with the dedup
    policy on, a pair that is stored already is not inserted again and the
    identity of the stored chunk is returned. *)
Definition insert (dedup : bool) (now : Z) (d : Draft) (s : Store) : nat * Store :=
  match (if dedup then find (samePair d) (rows s) else None) with
  | Some c => (id c, s)
  | None =>
      (nextId s,
       {| rows := rows s ++ [persist (nextId s) now d];
          nextId := S (nextId s) |})
  end.

(** Modelled from the spec: [count()] (4.3), whose code is missing. *)
Definition count (s : Store) : nat := length (rows s).

(** Modelled from the spec: [delete(id)] (4.3), whose code is missing. *)
Definition delete (i : nat) (s : Store) : Store :=
  {| rows := filter (fun c => negb (Nat.eqb (id c) i)) (rows s);
     nextId := nextId s |}.

(** The optional [docType] / [source] restriction of [query]. *)
Record Filter : Type := { byDocType : option DocType; bySource : option string }.

Definition noFilter : Filter := {| byDocType := None; bySource := None |}.

Definition sameDocType (a b : DocType) : bool :=
  match a, b with
  | faq, faq | news, news | guide, guide | investment, investment => true
  | _, _ => false
  end.

Definition admits (f : Filter) (c : Chunk) : bool :=
  match byDocType f with
  | Some t => sameDocType (docType c) t
  | None => true
  end &&
  match bySource f with
  | Some src => String.eqb (source c) src
  | None => true
  end.

(** A chunk with its relevance score, as the number the float stands
    for. *)
Definition Scored := (Chunk * Q)%type.

(** The relevance of a stored chunk to the query vector. *)
Definition relevance (v : Vector) (c : Chunk) : Q :=
  value (score v (embedding c)).

(** The chunks the filter admits, each with its relevance, in insertion
    order. *)
Definition candidates (v : Vector) (f : Filter) (s : Store) : list Scored :=
  map (fun c => (c, relevance v c)) (filter (admits f) (rows s)).

(** Put [e], which was inserted before every entry of [l], at its rank in
    [l]: after the entries that score higher, before those that tie. *)
Fixpoint place (e : Scored) (l : list Scored) : list Scored :=
  match l with
  | [] => [e]
  | x :: l' =>
      if Qle_bool (snd x) (snd e) then e :: x :: l'
      else x :: place e l'
  end.

(** Modelled from the spec: the ranking of 4.3, whose code is missing:
    by descending score, ties by insertion order. *)
Fixpoint rank (l : list Scored) : list Scored :=
  match l with
  | [] => []
  | e :: l' => place e (rank l')
  end.

(** Modelled from the spec: [query(vector, topK, filter)] (4.3), whose code
    is missing: the [topK] best-scoring chunks among those the filter
    admits. *)
Definition query (v : Vector) (topK : nat) (f : Filter) (s : Store) : list Scored :=
  firstn topK (rank (candidates v f s)).


(** The pair of [d] is in the store. *)
Definition stored (d : Draft) (s : Store) : Prop :=
  Exists (fun c => source c = d_source d /\ content c = d_content d) (rows s).

(** The stores that [insert] and [delete] build from the empty one. *)
Inductive reachable : Store -> Prop :=
| reach_empty : reachable empty
| reach_insert dedup now d s :
    reachable s -> reachable (snd (insert dedup now d s))
| reach_delete i s :
    reachable s -> reachable (delete i s).





(** The row in which the [documents] table keeps a chunk. *)
Definition docTypeName (t : DocType) : string :=
  match t with
  | faq => "faq"
  | news => "news"
  | guide => "guide"
  | investment => "investment"
  end.

Definition row (c : Chunk) : Schema.Document :=
  {| Schema.id := Z.of_nat (id c);
     Schema.content := content c;
     Schema.doc_metadata := Some (metadata c);
     Schema.embedding := Some (embedding c);
     Schema.source := Some (source c);
     Schema.doc_type := Some (docTypeName (docType c));
     Schema.created_at := Some (createdAt c);
     Schema.updated_at := Some (createdAt c) |}.

(** The table behind a store. *)
Definition table (s : Store) : list Schema.Document := map row (rows s).

(** [len(embedding)] is the same for every chunk of the store. *)
Definition oneLength (s : Store) : Prop :=
  forall c c', In c (rows s) -> In c' (rows s) ->
               length (embedding c) = length (embedding c').

End VectorStore.

(** *** The knowledge base: ingestion, retrieval, feedback *)

Module Knowledge.
Import Similarity VectorStore.

(** Ingestion, retrieval and promotion live in the Python backend, which
    is not among the sources; they are modelled from sections 2, 3, 4.2,
    4.4, 4.8 and 6 of the specification. *)

(** An embedding model: [embed(text)] and the dimension it declares. *)
Record Embedder : Type := { dimension : nat; embed : string -> Vector }.

(** Modelled from the spec: the contract of the Embedder (4.2), whose code
    is missing: [embed(text)] is a vector of the fixed dimension. *)
Definition fixedDimension (m : Embedder) : Prop :=
  forall t, length (embed m t) = dimension m.

Record System : Type := {
  store : Store;
  model : Embedder;
  audit : Gate.Audit
}.

Definition start (m : Embedder) : System :=
  {| store := empty; model := m; audit := [] |}.

Definition withStore (sys : System) (s : Store) : System :=
  {| store := s; model := model sys; audit := audit sys |}.

Definition withAudit (sys : System) (a : Gate.Audit) : System :=
  {| store := store sys; model := model sys; audit := a |}.

Section Configuration.
Variable dedup : bool.                  (* the dedup policy *)
Variable chunkSize overlap : Z.
Variable topK : nat.
Variable gate : Gate.Config.
Variable generate : string -> list Chunk -> string.
(** Where promoted answers are filed. *)
Variable promotedSource : string.
Variable promotedDocType : DocType.

(** Modelled from the spec: one step of the ingestion path (2), whose code
    is missing: embed a text and insert it. *)
Definition insertText (now : Z) (text source : string) (t : DocType)
           (sys : System) : System :=
  withStore sys
    (snd (insert dedup now
            {| d_content := text; d_source := source; d_docType := t;
               d_embedding := embed (model sys) text; d_metadata := [] |}
            (store sys))).

(** Modelled from the spec: document ingestion (2, 6), whose code is
    missing: Chunker, Embedder, [insert] for each chunk; returns the number
    of chunks created. *)
Definition ingest (now : Z) (document source : string) (t : DocType)
           (sys : System) : nat * System :=
  match Chunker.split (Chunker.ofString document) chunkSize overlap with
  | Chunker.Chunks cs =>
      (length cs,
       fold_left (fun sys' c => insertText now (string_of_list_ascii c) source t sys')
                 cs sys)
  | Chunker.ConfigError => (O, sys)
  end.

(** Modelled from the spec: [promote(id)] (4.8), whose code is missing: a
    new chunk from the question and the admin's answer; the
    [UnansweredQuery] stays. *)
Definition promote (now : Z) (i : nat) (sys : System) : System :=
  match find (fun u => Nat.eqb (Gate.uq_id u) i) (audit sys) with
  | Some u =>
      match Gate.adminResponse u with
      | Some a =>
          insertText now (String.append (Gate.userQuery u) a)
                     promotedSource promotedDocType sys
      | None => sys
      end
  | None => sys
  end.

(** Modelled from the spec: re-embedding on a model upgrade (3), whose
    code is missing: every chunk is embedded again with the new model. *)
Definition reembed (m : Embedder) (sys : System) : System :=
  {| store :=
       {| rows := map (fun c =>
                         {| id := id c; content := content c;
                            source := source c; docType := docType c;
                            embedding := embed m (content c);
                            metadata := metadata c;
                            createdAt := createdAt c |})
                      (rows (store sys));
          nextId := nextId (store sys) |};
     model := m;
     audit := audit sys |}.

(** Modelled from the spec: [retrieve(queryText, topK)] (4.4), whose code
    is missing. *)
Definition retrieve (question : string) (sys : System) : list Scored :=
  query (embed (model sys) question) topK noFilter (store sys).

(** What the Confidence Gate is given: the retrieved chunks, each with the
    number its score stands for. *)
Definition scores (l : list Scored) : Gate.RetrievalResult Chunk :=
  map (fun e => (fst e, Q2R (snd e))) l.

(** Modelled from the spec: the query path (2), whose code is missing. *)
Definition chat (now : Z) (question : string) (sys : System)
  : Gate.Reply * System :=
  match Gate.respond source generate gate now question
                     (scores (retrieve question sys)) (audit sys) with
  | (reply, a) => (reply, withAudit sys a)
  end.

Inductive Operation : Type :=
| Ingest (now : Z) (document source : string) (t : DocType)
| Promote (now : Z) (i : nat)
| Reembed (m : Embedder)
| Delete (i : nat)
| Chat (now : Z) (question : string)
| Resolve (now : Z) (i : nat) (answer : string).

Definition apply (op : Operation) (sys : System) : System :=
  match op with
  | Ingest now document src t => snd (ingest now document src t sys)
  | Promote now i => promote now i sys
  | Reembed m => reembed m sys
  | Delete i => withStore sys (delete i (store sys))
  | Chat now question => snd (chat now question sys)
  | Resolve now i answer => withAudit sys (Gate.resolve now i answer (audit sys))
  end.

(** Operations carried out one after the other. *)
Definition run (ops : list Operation) (sys : System) : System :=
  fold_left (fun sys' op => apply op sys') ops sys.

(** Every model put to use honours the Embedder contract. *)
Definition admissible (op : Operation) : Prop :=
  match op with
  | Reembed m => fixedDimension m
  | _ => True
  end.

(** [len(embedding)] is constant across the store: the dimension of the
    model in use. *)
Definition uniform (sys : System) : Prop :=
  Forall (fun c => length (embedding c) = dimension (model sys))
         (rows (store sys)).

End Configuration.

(** The model in use honours its contract and every stored vector has its
    dimension. *)
Definition sound (sys : System) : Prop :=
  fixedDimension (model sys) /\ uniform sys.

End Knowledge.

(* ===================================================================== *)
(** ** Sample data *)
(* ===================================================================== *)

Module Samples.
Import JS Eff ChatApi ChatBot.

Definition healthy : HealthCheck :=
  {| status := of_ascii "healthy"; service := of_ascii "chatbot";
     version := of_ascii "1.0.0"; environment := of_ascii "production";
     database := of_ascii "connected" |}.

Definition hedged : ChatResponse :=
  {| response := of_ascii "The minimum may be $2 million.";
     confidence_score := 0.45%Q;
     sources := [of_ascii "policy.pdf"];
     requires_attention := true;
     conversation_id := of_ascii "c-1" |}.

Definition assured : ChatResponse :=
  {| response := of_ascii "Our minimum investment is $2 million.";
     confidence_score := 0.8%Q;
     sources := [of_ascii "policy.pdf"];
     requires_attention := false;
     conversation_id := of_ascii "c-2" |}.

Definition asleep {A} : Reply A := {| latency := 60000; outcome := Rejected |}.

Definition prompt {A} (v : A) : Reply A :=
  {| latency := 120; outcome := Resolved true (of_ascii "OK") (Some v) |}.

(** A server that is waking up: the first two requests get no answer, the
    later ones do; a chat question gets [r]. *)
Definition waking (r : ChatResponse) : Server :=
  {| chat := fun _ _ => prompt r;
     health := fun k => if (k <? 2)%nat then asleep else prompt healthy |}.

Definition world (r : ChatResponse) : World :=
  {| clock := fun k => (1700000000000 + Z.of_nat k)%Z; server := waking r |}.

Definition portal (typed : jsstring) (online : bool) : ChatState :=
  {| messages := []; input := typed; loading := false; isOnline := online;
     showChat := true |}.

Definition begin (c : ChatState) : Runtime :=
  {| comp := c; defaultPrevented := false; reads := 0; net := net0 |}.

Definition investor : jsstring := of_ascii "test-investor-123".

(** Three spaces typed; a question typed. *)
Definition spaces : ChatState := portal (of_ascii "   ") true.
Definition asking : ChatState := portal (of_ascii "What is the minimum investment?") true.

End Samples.

Module CoreSamples.
Import Similarity VectorStore Knowledge.
Import PrimFloat.
Local Open Scope string_scope.


Definition echo {X} (question : string) (_ : list X) : string := question.

Definition east : Vector := [1; 0]%float.
Definition ones : Vector := [1; 1]%float.

(** Components too large, and too small, for their squares. *)
Definition huge : Vector := [0x1p+600; 1]%float.
Definition tiny : Vector := [0x1p-600; 0]%float.

Definition policy : Draft :=
  {| d_content := "Our minimum investment is $2 million.";
     d_source := "policy.pdf"; d_docType := investment;
     d_embedding := [1; 0]%float; d_metadata := [] |}.

Definition contact : Draft :=
  {| d_content := "Contact us at info@firm.com";
     d_source := "about.txt"; d_docType := faq;
     d_embedding := [0; 1]%float; d_metadata := [] |}.

Definition twoChunks : Store :=
  snd (insert true 20 contact (snd (insert true 10 policy empty))).

(** The same wording as [policy], filed under another source. *)
Definition memo : Draft :=
  {| d_content := "Our minimum investment is $2 million.";
     d_source := "memo.txt"; d_docType := investment;
     d_embedding := [1; 0]%float; d_metadata := [] |}.

Definition threeChunks : Store := snd (insert true 30 memo twoChunks).

(** A chunk whose vector comes from a model of another dimension. *)
Definition sketch : Draft :=
  {| d_content := "Fees are 2% of committed capital.";
     d_source := "fees.txt"; d_docType := guide;
     d_embedding := [0; 1; 0]%float; d_metadata := [] |}.

Definition mixed : Store :=
  snd (insert true 20 sketch (snd (insert true 10 policy empty))).

(** Stand-ins for embedding models, of dimensions 2 and 3. *)
Definition toy : Embedder :=
  {| dimension := 2;
     embed := fun t => match t with
                       | EmptyString => [0; 0]%float
                       | _ => [1; 0.5]%float
                       end |}.

Definition wider : Embedder :=
  {| dimension := 3;
     embed := fun t => match t with
                       | EmptyString => [0; 0; 0]%float
                       | _ => [1; 0.5; 0.25]%float
                       end |}.

Definition afterIngest : System :=
  apply true 1000 200 5 Gate.defaults echo "admin" faq
        (Ingest 10 "Our minimum investment is $2 million." "policy.pdf" investment)
        (start toy).

(** A day of the knowledge base: a question nothing answers, the admin's
    answer and its promotion, a document in three chunks, a model upgrade,
    one more document. *)
Definition day : list Operation :=
  [Chat 5 "Who is the CEO?";
   Resolve 6 0 "Sarah Jenkins.";
   Promote 7 0;
   Ingest 10 "Our minimum investment is $2 million." "policy.pdf" investment;
   Reembed wider;
   Ingest 20 "Contact us." "about.txt" faq].

Definition afterDay : System :=
  run true 16 4 5 Gate.defaults echo "admin" faq day (start toy).


End CoreSamples.

(* ===================================================================== *)
(** ** The rest of the frontend *)
(* ===================================================================== *)

(** *** [API_BASE_URL] *)

Module BaseUrl.
Import JS.

(** [process.env], when there is one: the value of a variable, [None] for
    [undefined]. *)
Definition Env := jsstring -> option jsstring.

(** The global [process]: [None] when [typeof process === "undefined"];
    otherwise its [env] property, which may itself be missing. *)
Definition Process := option (option Env).

Definition defaultUrl : jsstring := of_ascii "http://localhost:8001".
Definition variable : jsstring := of_ascii "REACT_APP_CHATBOT_API".

(** [process?.env?.REACT_APP_CHATBOT_API] *)
Definition configured (env : option Env) : option jsstring :=
  match env with
  | Some e => e variable
  | None => None
  end.

(** [(typeof process !== "undefined" && process?.env?.REACT_APP_CHATBOT_API)
     || "http://localhost:8001"] *)
Definition API_BASE_URL (process : Process) : jsstring :=
  match process with
  | None => defaultUrl                        (* false || default *)
  | Some env =>
      match configured env with
      | Some url => if truthy url then url else defaultUrl
      | None => defaultUrl                    (* undefined || default *)
      end
  end.

End BaseUrl.

(** *** What a helper makes of a reply *)

Module Fetching.
Import JS Eff ChatApi.

(** The completion of [fetch], the [response.ok] test and
    [response.json()] on a reply: aborted when the reply is not there by
    the deadline, rejected without a response, an [Error] with [message
    statusText] on a status that is not OK, a syntax error on a body that
    does not parse, the parsed body otherwise. *)
Definition verdict {A} (deadline : option N) (message : jsstring -> jsstring)
           (r : Reply A) : Completion A :=
  let classified :=
    match outcome r with
    | Rejected => Thrown NetworkError
    | Resolved false st _ => Thrown (ApiError (message st))
    | Resolved true _ None => Thrown SyntaxError
    | Resolved true _ (Some v) => Normal v
    end in
  match deadline with
  | Some ms => if (ms <=? latency r)%N then Thrown AbortError else classified
  | None => classified
  end.

(** The console output of a helper that ended in [c]: one error when it
    threw. *)
Definition complaint {A} (c : Completion A) : list Event :=
  match c with
  | Normal _ => []
  | Thrown _ => [Console LError]
  end.

Definition apiError (st : jsstring) : jsstring := of_ascii "API Error: " ++ st.
Definition apiDown (st : jsstring) : jsstring := of_ascii "API is down".

(** The waits in a log. *)
Definition pauses (l : list Event) : list Event :=
  filter (fun e => match e with Sleep _ => true | _ => false end) l.

(** The reply to request number [k] (from 0) of a health check started in
    [n], as the retrying [checkHealth] takes it. *)
Definition probed (server : Server) (n : Net) (k : nat) : Completion HealthCheck :=
  verdict (Some Js.attemptTimeoutMs) apiDown (health server (k + issued n)).

End Fetching.

(** *** The admin helpers of [chatbot-api.ts] *)

Module AdminApi.
Import JS Eff ChatApi.
Local Open Scope eff_scope.

(** [docType: "faq" | "news" | "guide" | "investment"] *)
Inductive DocType : Type := faq | news | guide | investment.

Definition docTypeName (t : DocType) : jsstring :=
  match t with
  | faq => of_ascii "faq"
  | news => of_ascii "news"
  | guide => of_ascii "guide"
  | investment => of_ascii "investment"
  end.

Section Helpers.
(** The parsed bodies ([Promise<any>]) and the uploaded [File]s. *)
Variable Json : Type.
Variable File : Type.

Inductive Endpoint : Type :=
| UploadDocument (file : File) (doc_type : jsstring)
    (* POST /admin/upload-document, a form with [file] and [doc_type] *)
| UnansweredQueries
    (* GET /admin/unanswered-queries *)
| RespondQuery (query_id response : jsstring)
    (* POST /admin/respond-query, JSON [{query_id, response}] *)
| Statistics.
    (* GET /admin/statistics *)

Inductive Trace : Type :=
| Requested (e : Endpoint)
| LoggedError.                      (* console.error *)

Record Wire : Type := { sent : nat; trail : list Trace }.

(** The admin side of the server: the reply to a request, given the number
    of requests sent before it. *)
Definition AdminServer := nat -> Endpoint -> Reply Json.

Variable server : AdminServer.

(** [await fetch(url, init)], without an abort signal. *)
Definition request (e : Endpoint) : M Wire (Response Json) :=
  fun n => (settle (server (sent n) e) None,
            {| sent := S (sent n); trail := trail n ++ [Requested e] |}).

(** [await response.json()] *)
Definition parsed (r : Response Json) : M Wire Json :=
  match body r with
  | Some v => ret v
  | None => throw SyntaxError
  end.

Definition logError : M Wire unit :=
  modify (fun n => {| sent := sent n; trail := trail n ++ [LoggedError] |}).

(** [uploadDocument(file, docType = "faq")]; [None] is the argument left
    out. *)
Definition uploadDocument (file : File) (docType : option DocType) : M Wire Json :=
  try_catch
    (let doc_type := match docType with Some t => t | None => faq end in
     response <- request (UploadDocument file (docTypeName doc_type)) ;;
     if negb (ok response)
     then throw (ApiError (of_ascii "Upload failed: " ++ statusText response))
     else parsed response)
    (fun error => logError ;; throw error).

(** [getUnansweredQueries()] *)
Definition getUnansweredQueries : M Wire Json :=
  try_catch
    (response <- request UnansweredQueries ;;
     if negb (ok response)
     then throw (ApiError (of_ascii "Failed to fetch queries: " ++ statusText response))
     else parsed response)
    (fun error => logError ;; throw error).

(** [respondToQuery(queryId, response)] *)
Definition respondToQuery (queryId response : jsstring) : M Wire Json :=
  try_catch
    (apiResponse <- request (RespondQuery queryId response) ;;
     if negb (ok apiResponse)
     then throw (ApiError (of_ascii "Failed to respond: " ++ statusText apiResponse))
     else parsed apiResponse)
    (fun error => logError ;; throw error).

(** [getStatistics()] *)
Definition getStatistics : M Wire Json :=
  try_catch
    (response <- request Statistics ;;
     if negb (ok response)
     then throw (ApiError (of_ascii "Failed to fetch statistics: " ++ statusText response))
     else parsed response)
    (fun error => logError ;; throw error).

(** The wire after one request to [e] that ended in [c]. *)
Definition onceSent (n : Wire) (e : Endpoint) (c : Completion Json) : Wire :=
  {| sent := S (sent n);
     trail := trail n ++ Requested e ::
                match c with Normal _ => [] | Thrown _ => [LoggedError] end |}.

End Helpers.

End AdminApi.

(** *** The rest of [components/ChatBot.js] *)

Module Widget.
Import JS Eff ChatApi ChatBot.
Local Open Scope eff_scope.

(** The state of [useState] at the first render. *)
Definition initial : ChatState :=
  {| messages := []; input := []; loading := false; isOnline := true;
     showChat := false |}.

Definition setIsOnline (v : bool) : M Runtime unit :=
  setComp (fun c => {| messages := messages c; input := input c;
                       loading := loading c; isOnline := v;
                       showChat := showChat c |}).

Definition setShowChat (v : bool) : M Runtime unit :=
  setComp (fun c => {| messages := messages c; input := input c;
                       loading := loading c; isOnline := isOnline c;
                       showChat := v |}).

(** The effect run on mount:
    [checkHealth().then(() => setIsOnline(true)).catch(() => setIsOnline(false))],
    for the [checkHealth] the component imports. *)
Definition checkOnMount {A} (checkHealth : M Net A) : M Runtime unit :=
  try_catch (api checkHealth ;; setIsOnline true)
            (fun _ => setIsOnline false).

(** A message as it is drawn: its React key, the class of its wrapper and
    its text. *)
Record Bubble : Type := { key : Z; side : Sender; words : jsstring }.

(** The chat window. *)
Record Window : Type := {
  welcome : bool;             (* messages.length === 0 *)
  bubbles : list Bubble;
  thinking : bool;            (* the "Thinking..." bubble *)
  inputValue : jsstring;
  inputDisabled : bool;
  sendDisabled : bool
}.

(** What the component returns. *)
Inductive View : Type :=
| OfflineNotice                     (* "Chatbot is currently offline." *)
| FloatButton                       (* the floating button alone *)
| ChatWindow (win : Window).

(** The render function of the component. *)
Definition render (c : ChatState) : View :=
  if negb (isOnline c) then OfflineNotice
  else if negb (showChat c) then FloatButton
  else ChatWindow
         {| welcome := Nat.eqb (length (messages c)) 0;
            bubbles := map (fun msg => {| key := id msg; side := sender msg;
                                          words := text msg |})
                           (messages c);
            thinking := loading c;
            inputValue := input c;
            inputDisabled := loading c;
            sendDisabled := loading c || negb (truthy (trim (input c))) |}.

(** What the user can do to the widget. *)
Inductive Action : Type :=
| Typed (value : jsstring)          (* onChange: setInput(e.target.value) *)
| Submitted                         (* onSubmit: handleSendMessage *)
| Opened                            (* the floating button: setShowChat(true) *)
| Closed.                           (* the close button: setShowChat(false) *)

Section Session.
Variable w : World.
Variable userId : jsstring.

(** One event, handled by the handlers of the latest render. *)
Definition act (a : Action) : M Runtime unit :=
  match a with
  | Typed value => setInput value
  | Submitted => fun r => handleSendMessage w userId (comp r) r
  | Opened => setShowChat true
  | Closed => setShowChat false
  end.

(** Events handled one after the other. *)
Fixpoint session (acts : list Action) : M Runtime unit :=
  match acts with
  | [] => ret tt
  | a :: rest => act a ;; session rest
  end.

End Session.

(** The clock never runs backwards. *)
Definition monotone (clock : nat -> Z) : Prop :=
  forall i j, i <= j -> (clock i <= clock j)%Z.

(** The body of the [POST /chat] request a submit sends. *)
Definition chatRequest (userId : jsstring) (snap : ChatState) : ChatRequest :=
  {| user_message := input snap; user_id := userId;
     conversation_history := map historyItem (messages snap) |}.

(** The messages of a turn whose first reading of the clock is number
    [k]. *)
Definition userMessageAt (w : World) (k : nat) (typed : jsstring) : Message :=
  {| id := clock w k; text := typed; sender := user;
     timestamp := clock w (S k); confidence := None; msg_sources := None |}.

Definition botMessageAt (w : World) (k : nat) (resp : ChatResponse) : Message :=
  {| id := clock w (2 + k) + 1; text := response resp; sender := bot;
     timestamp := clock w (3 + k);
     confidence := Some (confidence_score resp);
     msg_sources := Some (sources resp) |}.

Definition warningAt (w : World) (k : nat) : Message :=
  {| id := clock w (4 + k) + 2; text := lowConfidenceWarning; sender := bot;
     timestamp := clock w (5 + k); confidence := None; msg_sources := None |}.

Definition apologyAt (w : World) (k : nat) : Message :=
  {| id := clock w (2 + k) + 1; text := errorText; sender := bot;
     timestamp := clock w (3 + k); confidence := None; msg_sources := None |}.

(** The completion of the [sendChatMessage] call of a submit made from
    the render [snap] in the runtime [r]. *)
Definition sentFrom (w : World) (userId : jsstring) (snap : ChatState)
           (r : Runtime) : Completion ChatResponse :=
  Fetching.verdict None Fetching.apiError
    (chat (server w) (issued (net r)) (chatRequest userId snap)).

(** The readings of the clock a turn takes. *)
Definition readings (c : Completion ChatResponse) : nat :=
  match c with
  | Normal resp => if requires_attention resp then 6 else 4
  | Thrown _ => 4
  end.

(** What a turn adds to the message list, by the completion of
    [sendChatMessage]. *)
Definition added (w : World) (k : nat) (typed : jsstring)
           (c : Completion ChatResponse) : list Message :=
  match c with
  | Normal resp =>
      userMessageAt w k typed :: botMessageAt w k resp ::
      (if requires_attention resp then [warningAt w k] else [])
  | Thrown _ => [userMessageAt w k typed; apologyAt w k]
  end.


End Widget.

Module MoreSamples.
Import JS Eff ChatApi ChatBot Widget Samples.

(** A server that is healthy but slow: every reply takes 25 seconds. *)
Definition slow {A} (v : A) : Reply A :=
  {| latency := 25000; outcome := Resolved true (of_ascii "OK") (Some v) |}.

Definition sluggish : Server :=
  {| chat := fun _ _ => slow hedged; health := fun _ => slow healthy |}.

(** A server that is down. *)
Definition down : Server :=
  {| chat := fun _ _ => asleep; health := fun _ => asleep |}.

(** A server that answers 503. *)
Definition refusing {A} : Reply A :=
  {| latency := 40;
     outcome := Resolved false (of_ascii "Service Unavailable") None |}.

Definition overloaded : Server :=
  {| chat := fun _ _ => refusing; health := fun _ => refusing |}.

Definition nightfall : World :=
  {| clock := fun k => (1700000000000 + Z.of_nat k)%Z; server := down |}.

Definition padded : ChatState := portal (of_ascii "  hello ") true.

Definition offlinePortal : ChatState := portal (of_ascii "hello") false.

Definition production : BaseUrl.Process :=
  Some (Some (fun name => Some (of_ascii "https://chatbot.example.com"))).

Definition adminDown : AdminApi.AdminServer jsstring unit :=
  fun _ _ => refusing.

Definition nextQuestion : jsstring := of_ascii "And the maximum?".



(** The chat window [asking] is drawn as. *)
Definition askingWindow : Window :=
  {| welcome := true; bubbles := []; thinking := false;
     inputValue := input asking; inputDisabled := false;
     sendDisabled := false |}.

(** A server whose health check fails in three ways: no connection, then a
    503, then a reply that comes too late. *)
Definition failing : Server :=
  {| chat := fun _ _ => asleep;
     health := fun k => match k with
                        | O => {| latency := 30; outcome := Rejected |}
                        | S O => refusing
                        | _ => slow healthy
                        end |}.

End MoreSamples.

(* ===================================================================== *)
(** * Properties *)
(* ===================================================================== *)

(** ** JavaScript strings *)

Section TrimFacts.
Import JS.

Lemma trimStart_blank s : blank s -> trimStart s = [].
Proof.
  induction 1 as [|c s Hc _ IH]; simpl; [reflexivity|].
  now rewrite Hc.
Qed.

Lemma trim_blank s : blank s -> trim s = [].
Proof.
  intros H. unfold trim, trimEnd. now rewrite (trimStart_blank H).
Qed.

Lemma trimStart_nil_blank s : trimStart s = [] -> blank s.
Proof.
  induction s as [|c s IH]; simpl; intros H; [constructor|].
  destruct (isWhiteSpace c) eqn:E; [|discriminate].
  constructor; [exact E | exact (IH H)].
Qed.

Lemma trimStart_head s c t : trimStart s = c :: t -> isWhiteSpace c = false.
Proof.
  induction s as [|d s IH]; simpl; [discriminate|].
  destruct (isWhiteSpace d) eqn:E; auto.
  intros [= -> _]. exact E.
Qed.

Lemma trimStart_last s c :
  isWhiteSpace c = false -> trimStart (s ++ [c]) <> [].
Proof.
  intros Hc. induction s as [|d s IH]; simpl.
  - now rewrite Hc.
  - destruct (isWhiteSpace d); [exact IH | discriminate].
Qed.

(** [trim] yields the empty string exactly on blank strings. *)
Lemma trim_nil_iff s : trim s = [] <-> blank s.
Proof.
  split; [|apply trim_blank].
  unfold trim, trimEnd. intros H.
  apply trimStart_nil_blank.
  destruct (trimStart s) as [|c t] eqn:E; [reflexivity|].
  exfalso.
  assert (Hr : trimStart (rev (c :: t)) = []).
  { apply (f_equal (@rev N)) in H. now rewrite rev_involutive in H. }
  simpl in Hr. revert Hr.
  apply trimStart_last. exact (trimStart_head _ E).
Qed.

End TrimFacts.

(** ** The chat widget *)

Section ChatBotFacts.
Import JS Eff ChatApi ChatBot.

(** The guard of the handler refuses exactly the blank inputs and the
    offline widget. *)
Lemma submitRefused_iff snap :
  submitRefused snap = true <-> blank (input snap) \/ isOnline snap = false.
Proof.
  unfold submitRefused.
  rewrite orb_true_iff, !negb_true_iff, <- trim_nil_iff.
  destruct (trim (input snap)); cbn; intuition discriminate.
Qed.

(** C9. When the input is empty or white space only, or the chatbot is
    offline, [handleSendMessage] returns at once: it leaves the component
    state (messages, input, loading flag and the rest) as it was and the
    network untouched, so no request is sent. *)
Theorem handleSendMessage_refused_frame
        (w : World) (userId : jsstring) (snap : ChatState) (r : Runtime) :
  blank (input snap) \/ isOnline snap = false ->
  fst (handleSendMessage w userId snap r) = Normal tt /\
  comp (snd (handleSendMessage w userId snap r)) = comp r /\
  net (snd (handleSendMessage w userId snap r)) = net r /\
  requests (log (net (snd (handleSendMessage w userId snap r))))
    = requests (log (net r)).
Proof.
  intros H. apply submitRefused_iff in H.
  unfold handleSendMessage, bind, preventDefault, modify.
  rewrite H. simpl. repeat split; reflexivity.
Qed.

End ChatBotFacts.

Section ChatBotWitnesses.
Import JS Eff ChatApi ChatBot Samples.

Lemma handleSendMessage_refused_frame_witness :
  (blank (input spaces) \/ isOnline spaces = false) /\
  fst (handleSendMessage (world hedged) investor spaces (begin spaces)) = Normal tt /\
  comp (snd (handleSendMessage (world hedged) investor spaces (begin spaces))) = spaces /\
  net (snd (handleSendMessage (world hedged) investor spaces (begin spaces))) = net0 /\
  requests (log (net (snd (handleSendMessage (world hedged) investor spaces (begin spaces))))) = [].
Proof.
  assert (H : blank (input spaces) \/ isOnline spaces = false)
    by (left; repeat constructor).
  split; [exact H|].
  exact (handleSendMessage_refused_frame (world hedged) investor spaces (begin spaces) H).
Defined.

End ChatBotWitnesses.

Section ChatBotTurn.
Import JS Eff ChatApi ChatBot.

(** C8. When the backend's response to a submitted question has
    [requires_attention = true], the message list grows by exactly three
    entries: the user's message, the bot's answer and, right after it, one
    more bot message carrying the low-confidence warning; when the flag is
    [false] it grows by exactly two, the user's message and the answer. *)
Theorem handleSendMessage_growth
        (w : World) (userId : jsstring) (snap : ChatState) (r : Runtime)
        (resp : ChatResponse) (n' : Net) :
  submitRefused snap = false ->
  sendChatMessage (server w) (input snap) userId
                  (map historyItem (messages snap)) (net r) = (Normal resp, n') ->
  exists u b : Message,
    sender u = user /\ text u = input snap /\
    sender b = bot /\ text b = response resp /\
    if requires_attention resp
    then exists wm : Message,
        sender wm = bot /\ text wm = lowConfidenceWarning /\
        messages (comp (snd (handleSendMessage w userId snap r)))
          = messages (comp r) ++ [u; b; wm] /\
        length (messages (comp (snd (handleSendMessage w userId snap r))))
          = length (messages (comp r)) + 3
    else
        messages (comp (snd (handleSendMessage w userId snap r)))
          = messages (comp r) ++ [u; b] /\
        length (messages (comp (snd (handleSendMessage w userId snap r))))
          = length (messages (comp r)) + 2.
Proof.
  intros Hgo Hsend.
  unfold handleSendMessage. rewrite Hgo.
  unfold bind, preventDefault, addUserMessage, setInput, setLoading,
    setMessages, setComp, modify, readClock, try_finally, try_catch, api, bind.
  cbn [comp defaultPrevented reads net fst snd messages input loading isOnline showChat].
  rewrite Hsend.
  unfold addBotMessage, addWarningMessage, setMessages, setComp, modify,
    readClock, bind, ret.
  cbn [comp defaultPrevented reads net fst snd messages input loading isOnline showChat].
  exists {| id := clock w (reads r); text := input snap; sender := user;
            timestamp := clock w (S (reads r));
            confidence := None; msg_sources := None |}.
  exists {| id := clock w (S (S (reads r))) + 1; text := response resp;
            sender := bot; timestamp := clock w (S (S (S (reads r))));
            confidence := Some (confidence_score resp);
            msg_sources := Some (sources resp) |}.
  repeat (split; [reflexivity|]).
  destruct (requires_attention resp) eqn:Hflag;
    cbn [comp defaultPrevented reads net fst snd messages input loading isOnline showChat].
  - exists {| id := clock w (S (S (S (S (reads r))))) + 2;
              text := lowConfidenceWarning; sender := bot;
              timestamp := clock w (S (S (S (S (S (reads r))))));
              confidence := None; msg_sources := None |}.
    repeat (split; [reflexivity|]).
    split.
    + rewrite <- !app_assoc. reflexivity.
    + rewrite !length_app. simpl. lia.
  - split.
    + rewrite <- !app_assoc. reflexivity.
    + rewrite !length_app. simpl. lia.
Qed.

End ChatBotTurn.
Section ChatBotTurnWitness.
Import JS Eff ChatApi ChatBot Samples.

Lemma handleSendMessage_growth_witness :
  submitRefused asking = false /\
  fst (sendChatMessage (server (world hedged)) (input asking) investor
         (map historyItem (messages asking)) (net (begin asking))) = Normal hedged /\
  length (messages (comp (snd (handleSendMessage (world hedged) investor asking
                                 (begin asking)))))
    = length (messages (comp (begin asking))) + 3.
Proof.
  split; [reflexivity|]. split; [reflexivity|].
  destruct (@handleSendMessage_growth (world hedged) investor asking (begin asking)
              hedged _ eq_refl eq_refl) as (u & b & _ & _ & _ & _ & H).
  destruct H as (wm & _ & _ & _ & L).
  exact L.
Defined.

End ChatBotTurnWitness.

(** ** Health checks *)

Section HealthFacts.
Import JS Eff ChatApi ChatApi.Js.
Local Open Scope eff_scope.

Variable server : Server.

Ltac split_deadline lat :=
  let Hlt := fresh "Hlt" in
  let Hge := fresh "Hge" in
  destruct (N.ltb_spec lat attemptTimeoutMs) as [Hlt|Hge];
  [ rewrite (proj2 (N.leb_gt _ _) Hlt) | rewrite (proj2 (N.leb_le _ _) Hge) ].

Ltac run_request H :=
  unfold bind, try_catch, fetch, settle, answer, json, throw, ret, console,
    sleep, emit, modify, after in *;
  let lat := fresh "lat" in
  let out := fresh "out" in
  match goal with
  | |- context [health server ?k] => destruct (health server k) as [lat out]
  | |- context [chat server ?k ?q] => destruct (chat server k q) as [lat out]
  end;
  cbn [latency outcome ok body statusText issued log] in *;
  try split_deadline lat;
  destruct out as [|[|] ? [?|]];
  cbn [latency outcome ok body statusText issued log negb] in *;
  try discriminate H.

Lemma attempt_answered (k : nat) (n : Net) (v : HealthCheck) :
  answer (Some attemptTimeoutMs) (health server (issued n)) = Some v ->
  attempt_body server k n = (Normal (Some v), after n 1 [probe]).
Proof.
  intros H. unfold attempt_body, probe.
  run_request H.
  injection H as ->. reflexivity.
Qed.

Lemma attempt_unanswered (k : nat) (n : Net) :
  answer (Some attemptTimeoutMs) (health server (issued n)) = None ->
  if k <? maxRetries
  then attempt_body server k n
       = (Normal None, after n 1 [probe; Console LWarn; pause])
  else exists e, attempt_body server k n
       = (Thrown e, after n 1 [probe; Console LWarn; Console LError]).
Proof.
  intros H. unfold attempt_body, probe, pause.
  destruct (k <? maxRetries);
    run_request H;
    rewrite <- ?app_assoc; cbn [app]; eauto.
Qed.

Lemma single_unanswered (n : Net) :
  answer None (health server (issued n)) = None ->
  exists e, Ts.checkHealth server n
            = (Thrown e, after n 1 [Fetch GetHealth None; Console LError]).
Proof.
  intros H. unfold Ts.checkHealth.
  run_request H;
    rewrite <- ?app_assoc; cbn [app]; eauto.
Qed.

Lemma single_answered (n : Net) (v : HealthCheck) :
  answer None (health server (issued n)) = Some v ->
  Ts.checkHealth server n = (Normal v, after n 1 [Fetch GetHealth None]).
Proof.
  intros H. unfold Ts.checkHealth.
  run_request H.
  injection H as ->. reflexivity.
Qed.

End HealthFacts.

Section HealthRetry.
Import JS Eff ChatApi ChatApi.Js.

Lemma after_after (n : Net) (j k : nat) (l m : list Event) :
  after (after n j l) k m = after n (k + j) (l ++ m).
Proof.
  unfold after. cbn [issued log]. now rewrite app_assoc, Nat.add_assoc.
Qed.

(** C10. The retrying [checkHealth] makes up to three requests to
    [/health], each aborted after 20000 ms, and waits 15000 ms between two
    of them. It returns the parsed body of the first request that is
    answered, and throws only when the third one fails too. The
    single-attempt [checkHealth] of [chatbot-api.ts] throws as soon as its
    one request fails. *)
Theorem checkHealth_retries (server : Server) (n : Net) :
  attemptTimeoutMs = 20000%N /\ retryDelayMs = 15000%N /\ maxRetries = 3 /\
  (forall v, heard server n 0 = Some v ->
     checkHealth server n = (Normal (Some v), after n 1 [probe])) /\
  (forall v, heard server n 0 = None -> heard server n 1 = Some v ->
     checkHealth server n
     = (Normal (Some v), after n 2 [probe; Console LWarn; pause; probe])) /\
  (forall v, heard server n 0 = None -> heard server n 1 = None ->
             heard server n 2 = Some v ->
     checkHealth server n
     = (Normal (Some v),
        after n 3 [probe; Console LWarn; pause;
                   probe; Console LWarn; pause; probe])) /\
  (heard server n 0 = None -> heard server n 1 = None ->
   heard server n 2 = None ->
     exists e, checkHealth server n
     = (Thrown e,
        after n 3 [probe; Console LWarn; pause;
                   probe; Console LWarn; pause;
                   probe; Console LWarn; Console LError])) /\
  (answer None (health server (issued n)) = None ->
     exists e, Ts.checkHealth server n
     = (Thrown e, after n 1 [Fetch GetHealth None; Console LError])).
Proof.
  unfold heard.
  repeat (split; [reflexivity|]).
  assert (Step1 : forall v, answer (Some attemptTimeoutMs) (health server (0 + issued n)) = Some v ->
            checkHealth server n = (Normal (Some v), after n 1 [probe])).
  { intros v H. unfold checkHealth. cbn [retry_loop maxRetries Nat.leb]. unfold bind.
    now rewrite (attempt_answered server 1 n H). }
  assert (Fail1 : answer (Some attemptTimeoutMs) (health server (0 + issued n)) = None ->
            checkHealth server n
            = retry_loop server 2 2 (after n 1 [probe; Console LWarn; pause])).
  { intros H. unfold checkHealth. cbn [retry_loop maxRetries Nat.leb]. unfold bind.
    pose proof (attempt_unanswered server 1 n H) as A. cbn in A.
    now rewrite A. }
  assert (Step2 : forall m v, issued m = 1 + issued n ->
            answer (Some attemptTimeoutMs) (health server (1 + issued n)) = Some v ->
            retry_loop server 2 2 m = (Normal (Some v), after m 1 [probe])).
  { intros m v Hm H. rewrite <- Hm in H.
    cbn [retry_loop maxRetries Nat.leb]. unfold bind.
    now rewrite (attempt_answered server 2 m H). }
  assert (Fail2 : forall m, issued m = 1 + issued n ->
            answer (Some attemptTimeoutMs) (health server (1 + issued n)) = None ->
            retry_loop server 2 2 m
            = retry_loop server 1 3 (after m 1 [probe; Console LWarn; pause])).
  { intros m Hm H. rewrite <- Hm in H.
    cbn [retry_loop maxRetries Nat.leb]. unfold bind.
    pose proof (attempt_unanswered server 2 m H) as A. cbn in A.
    now rewrite A. }
  assert (Step3 : forall m v, issued m = 2 + issued n ->
            answer (Some attemptTimeoutMs) (health server (2 + issued n)) = Some v ->
            retry_loop server 1 3 m = (Normal (Some v), after m 1 [probe])).
  { intros m v Hm H. rewrite <- Hm in H.
    cbn [retry_loop maxRetries Nat.leb]. unfold bind.
    now rewrite (attempt_answered server 3 m H). }
  assert (Fail3 : forall m, issued m = 2 + issued n ->
            answer (Some attemptTimeoutMs) (health server (2 + issued n)) = None ->
            exists e, retry_loop server 1 3 m
            = (Thrown e, after m 1 [probe; Console LWarn; Console LError])).
  { intros m Hm H. rewrite <- Hm in H.
    cbn [retry_loop maxRetries Nat.leb]. unfold bind.
    pose proof (attempt_unanswered server 3 m H) as A. cbn in A.
    destruct A as [e A]. exists e. now rewrite A. }
  split; [exact Step1|].
  split.
  { intros v H0 H1. rewrite (Fail1 H0).
    rewrite (Step2 (after n 1 [probe; Console LWarn; pause]) v eq_refl H1).
    now rewrite after_after. }
  split.
  { intros v H0 H1 H2. rewrite (Fail1 H0).
    rewrite (Fail2 (after n 1 [probe; Console LWarn; pause]) eq_refl H1), after_after.
    rewrite (Step3 (after n (1 + 1) _) v eq_refl H2). now rewrite after_after. }
  split.
  { intros H0 H1 H2. rewrite (Fail1 H0).
    rewrite (Fail2 (after n 1 [probe; Console LWarn; pause]) eq_refl H1), after_after.
    destruct (Fail3 (after n (1 + 1) ([probe; Console LWarn; pause] ++ [probe; Console LWarn; pause]))
                     eq_refl H2) as [e E]. exists e.
    rewrite E. now rewrite after_after. }
  apply single_unanswered.
Qed.

End HealthRetry.

Section HealthRetryWitness.
Import JS Eff ChatApi ChatApi.Js Samples.

Lemma checkHealth_retries_witness :
  heard (waking hedged) net0 0 = None /\
  heard (waking hedged) net0 1 = None /\
  heard (waking hedged) net0 2 = Some healthy /\
  checkHealth (waking hedged) net0
  = (Normal (Some healthy),
     after net0 3 [probe; Console LWarn; pause;
                   probe; Console LWarn; pause; probe]) /\
  answer None (health (waking hedged) (issued net0)) = None /\
  exists e, Ts.checkHealth (waking hedged) net0
            = (Thrown e, after net0 1 [Fetch GetHealth None; Console LError]).
Proof.
  destruct (checkHealth_retries (waking hedged) net0)
    as (_ & _ & _ & _ & _ & Third & _ & Single).
  split; [reflexivity|]. split; [reflexivity|]. split; [reflexivity|].
  split; [exact (Third healthy eq_refl eq_refl eq_refl)|].
  split; [reflexivity|].
  exact (Single eq_refl).
Defined.

End HealthRetryWitness.

(** ** Confidence Gate *)

Section GateFacts.
Import Gate.
Local Open Scope R_scope.

Variable Item : Type.
Variable sourceOf : Item -> string.
Variable generate : string -> list Item -> string.

Lemma decide_cases (cfg : Config) (r : RetrievalResult Item) (c : Item) (top : R)
      (rest : RetrievalResult Item) :
  r = (c, top) :: rest ->
  (top < fallbackThreshold cfg -> decide cfg r = Refuse) /\
  (fallbackThreshold cfg <= top < answerThreshold cfg ->
   decide cfg r = AnswerWithWarning) /\
  (fallbackThreshold cfg <= top -> answerThreshold cfg <= top ->
   decide cfg r = Answer).
Proof.
  intros ->. unfold decide. cbn [topScore].
  repeat split; intros;
    destruct (Rlt_dec top (fallbackThreshold cfg));
    destruct (Rlt_dec top (answerThreshold cfg)); try reflexivity; lra.
Qed.

(** C1. With [fallbackThreshold = 0.3] and [answerThreshold = 0.6], a
    retrieval outcome whose top score is 0.25 is refused; one whose top
    score is 0.45 is answered with a warning: [requires_attention] is set
    and exactly one [UnansweredQuery] is recorded, with that confidence;
    one whose top score is 0.8 is answered with no flag and no record. *)
Theorem gate_thresholds (now : Z) (question : string) (c : Item)
        (rest : RetrievalResult Item) (log : Audit) :
  (decide defaults ((c, 0.25) :: rest) = Refuse /\
   response (fst (respond sourceOf generate defaults now question
                          ((c, 0.25) :: rest) log)) = refusalMessage) /\
  (decide defaults ((c, 0.45) :: rest) = AnswerWithWarning /\
   requires_attention (fst (respond sourceOf generate defaults now question
                                    ((c, 0.45) :: rest) log)) = true /\
   response (fst (respond sourceOf generate defaults now question
                          ((c, 0.45) :: rest) log))
     = generate question (c :: map fst rest) /\
   exists u,
     snd (respond sourceOf generate defaults now question
                  ((c, 0.45) :: rest) log) = log ++ [u] /\
     userQuery u = question /\ confidenceScore u = Some 0.45 /\
     status u = open) /\
  (decide defaults ((c, 0.8) :: rest) = Answer /\
   requires_attention (fst (respond sourceOf generate defaults now question
                                    ((c, 0.8) :: rest) log)) = false /\
   response (fst (respond sourceOf generate defaults now question
                          ((c, 0.8) :: rest) log))
     = generate question (c :: map fst rest) /\
   snd (respond sourceOf generate defaults now question
                ((c, 0.8) :: rest) log) = log).
Proof.
  assert (Low : decide defaults ((c, 0.25) :: rest) = Refuse).
  { apply (decide_cases defaults (eq_refl ((c, 0.25) :: rest))).
    cbn [defaults fallbackThreshold]. lra. }
  assert (Mid : decide defaults ((c, 0.45) :: rest) = AnswerWithWarning).
  { apply (decide_cases defaults (eq_refl ((c, 0.45) :: rest))).
    cbn [defaults fallbackThreshold answerThreshold]. lra. }
  assert (High : decide defaults ((c, 0.8) :: rest) = Answer).
  { apply (decide_cases defaults (eq_refl ((c, 0.8) :: rest)));
      cbn [defaults fallbackThreshold answerThreshold]; lra. }
  unfold respond. rewrite Low, Mid, High. cbn [fst snd response requires_attention].
  repeat split.
  eexists. split; [reflexivity|]. repeat split.
Qed.

End GateFacts.

(** ** Similarity *)

Section FloatFacts.
Import PrimFloat FloatOps FloatAxioms SpecFloat.



End FloatFacts.

Section SimilarityFacts.
Import Similarity.
Import PrimFloat.
Local Open Scope float_scope.




End SimilarityFacts.

Section ExactFacts.
Import Similarity.Exact.
Local Open Scope R_scope.











End ExactFacts.

Section ScoreFacts.
Import Similarity CoreSamples.
Import PrimFloat.



End ScoreFacts.

(** ** Vector Store *)

Section ListFacts.
Variable A : Type.
Variable R : A -> A -> Prop.






Lemma find_snoc (f : A -> bool) (l : list A) (x : A) :
  find f (l ++ [x])
  = match find f l with
    | Some y => Some y
    | None => if f x then Some x else None
    end.
Proof.
  induction l as [|a l IH]; cbn; [reflexivity|].
  destruct (f a); [reflexivity | exact IH].
Qed.

Lemma find_none_filter (f : A -> bool) (l : list A) :
  find f l = None -> filter f l = [].
Proof.
  induction l as [|a l IH]; cbn; [reflexivity|].
  destruct (f a); [discriminate | exact IH].
Qed.

End ListFacts.

Section VectorStoreFacts.
Import Similarity VectorStore.













Lemma samePair_spec (d : Draft) (c : Chunk) :
  samePair d c = true <-> source c = d_source d /\ content c = d_content d.
Proof.
  unfold samePair. rewrite andb_true_iff, !String.eqb_eq. reflexivity.
Qed.

Lemma find_unstored (d : Draft) (s : Store) :
  ~ stored d s -> find (samePair d) (rows s) = None.
Proof.
  intros Hn. destruct (find (samePair d) (rows s)) as [c|] eqn:E; [|reflexivity].
  exfalso. apply Hn. apply find_some in E. destruct E as [Hin Hc].
  apply Exists_exists. exists c. split; [exact Hin|].
  apply samePair_spec, Hc.
Qed.

Lemma samePair_persist (i : nat) (now : Z) (d : Draft) :
  samePair d (persist i now d) = true.
Proof. apply samePair_spec. split; reflexivity. Qed.

(** C5. With the dedup policy on, an insert of a [(source, content)] pair
    that is stored already is skipped and returns the identity of the
    stored chunk; hence, from a store that does not hold the pair yet,
    inserting it twice leaves exactly one chunk with that pair and
    [count()] exactly one above what it was before the first insert. *)
Theorem insert_idempotent (now1 now2 : Z) (d : Draft) (s : Store) :
  (forall c, find (samePair d) (rows s) = Some c ->
             insert true now1 d s = (id c, s)) /\
  (snd (insert true now2 d (snd (insert true now1 d s)))
     = snd (insert true now1 d s) /\
   fst (insert true now2 d (snd (insert true now1 d s)))
     = fst (insert true now1 d s)) /\
  (~ stored d s ->
   count (snd (insert true now2 d (snd (insert true now1 d s)))) = count s + 1 /\
   length (filter (samePair d)
                  (rows (snd (insert true now2 d (snd (insert true now1 d s))))))
     = 1).
Proof.
  assert (Again : snd (insert true now2 d (snd (insert true now1 d s)))
                    = snd (insert true now1 d s) /\
                  fst (insert true now2 d (snd (insert true now1 d s)))
                    = fst (insert true now1 d s)).
  { destruct (find (samePair d) (rows s)) as [c|] eqn:E.
    - assert (First : insert true now1 d s = (id c, s))
        by (unfold insert; now rewrite E).
      rewrite First. cbn [fst snd]. unfold insert. rewrite E.
      split; reflexivity.
    - assert (First : insert true now1 d s
                      = (nextId s,
                         {| rows := rows s ++ [persist (nextId s) now1 d];
                            nextId := S (nextId s) |}))
        by (unfold insert; now rewrite E).
      rewrite First. cbn [fst snd]. unfold insert. cbn [rows nextId].
      rewrite find_snoc, E, samePair_persist. split; reflexivity. }
  split; [|split; [exact Again|]].
  - intros c E. unfold insert. now rewrite E.
  - intros Hn. destruct Again as [-> _].
    unfold insert. rewrite (find_unstored Hn). unfold count. cbn [snd rows].
    split.
    + now rewrite length_app.
    + rewrite filter_app, (find_none_filter _ _ (find_unstored Hn)).
      cbn. now rewrite samePair_persist.
Qed.

End VectorStoreFacts.

(** ** The embedding dimension *)

Section KnowledgeFacts.
Import Similarity VectorStore Knowledge.

Variable dedup : bool.
Variable chunkSize overlap : Z.
Variable topK : nat.
Variable gate : Gate.Config.
Variable generate : string -> list Chunk -> string.
Variable promotedSource : string.
Variable promotedDocType : DocType.

Lemma insertText_sound (now : Z) (text src : string) (t : DocType) (sys : System) :
  sound sys -> sound (insertText dedup now text src t sys).
Proof.
  intros [Hm Hu]. split; [exact Hm|].
  unfold uniform, insertText, withStore, insert in *. cbn [store model].
  destruct (if dedup then find _ (rows (store sys)) else None) as [c|];
    cbn [snd rows]; [exact Hu|].
  apply Forall_app. split; [exact Hu|].
  constructor; [|constructor]. cbn [persist embedding d_embedding]. apply Hm.
Qed.

Lemma fold_sound {X} (f : System -> X -> System) (xs : list X) :
  (forall sys x, sound sys -> sound (f sys x)) ->
  forall sys, sound sys -> sound (fold_left f xs sys).
Proof.
  intros Hf. induction xs as [|x xs IH]; cbn; intros sys Hs; [exact Hs|].
  apply IH, Hf, Hs.
Qed.

Lemma apply_sound (op : Operation) (sys : System) :
  admissible op -> sound sys ->
  sound (apply dedup chunkSize overlap topK gate generate
               promotedSource promotedDocType op sys).
Proof.
  intros Hop Hs. destruct op as [now doc src t | now i | m | i | now q | now i a];
    cbn [apply].
  - unfold ingest. destruct (Chunker.split _ _ _) as [cs|]; cbn [snd]; [|exact Hs].
    apply fold_sound; [|exact Hs].
    intros sys' c. apply insertText_sound.
  - unfold promote. destruct (find _ (audit sys)) as [u|]; [|exact Hs].
    destruct (Gate.adminResponse u); [|exact Hs].
    apply insertText_sound, Hs.
  - split; [exact Hop|].
    unfold uniform, reembed. cbn [store model rows].
    apply Forall_forall. intros c Hc.
    apply in_map_iff in Hc. destruct Hc as (c0 & <- & _). cbn [embedding].
    apply Hop.
  - destruct Hs as [Hm Hu]. split; [exact Hm|].
    unfold uniform, withStore, delete in *. cbn [store model rows].
    rewrite Forall_forall in *. intros c Hc.
    apply filter_In in Hc. apply Hu, Hc.
  - unfold chat. destruct (Gate.respond _ _ _ _ _ _ _) as [reply a].
    cbn [snd]. exact Hs.
  - exact Hs.
Qed.

Lemma run_sound (ops : list Operation) (sys : System) :
  Forall admissible ops -> sound sys ->
  sound (run dedup chunkSize overlap topK gate generate
             promotedSource promotedDocType ops sys).
Proof.
  intros Hops. revert sys. unfold run.
  induction Hops as [|op ops Hop _ IH]; cbn [fold_left]; intros sys Hs; [exact Hs|].
  apply IH, apply_sound; assumption.
Qed.

(** C6, as the backend keeps it. With embedding models that honour the
    Embedder contract (every vector of the model has its dimension), in
    every state the knowledge base reaches from the empty store by
    ingesting documents, promoting admin answers and re-embedding on a
    model upgrade (and deleting, chatting, resolving), all stored chunks
    have an embedding of one and the same length: the dimension of the
    model in use. *)
Theorem embedding_length_constant (m : Embedder) (ops : list Operation) :
  fixedDimension m ->
  Forall admissible ops ->
  forall c,
    In c (rows (store (run dedup chunkSize overlap topK gate generate
                           promotedSource promotedDocType ops (start m)))) ->
    length (embedding c)
    = dimension (model (run dedup chunkSize overlap topK gate generate
                            promotedSource promotedDocType ops (start m))).
Proof.
  intros Hm Hops c Hc.
  assert (Hs : sound (start m)) by (split; [exact Hm | constructor]).
  destruct (run_sound Hops Hs) as [_ Hu].
  unfold uniform in Hu. rewrite Forall_forall in Hu. apply Hu, Hc.
Qed.

End KnowledgeFacts.

Section SchemaFacts.
Import Similarity VectorStore CoreSamples.

(** C6 as worded does not hold of the store: the [documents] table takes
    an [embedding] of any length and [insert] persists the vector it is
    given, so two inserts leave embeddings of lengths 2 and 3. *)
Lemma embedding_length_unchecked :
  ~ (forall s : Store,
        reachable s -> Schema.valid (table s) = true -> oneLength s).
Proof.
  intros H.
  assert (Hr : reachable mixed)
    by (unfold mixed; apply reach_insert, reach_insert, reach_empty).
  assert (E : length (embedding (persist 1 10 policy))
              = length (embedding (persist 2 20 sketch)))
    by (apply (H mixed Hr eq_refl); cbn; auto).
  discriminate E.
Qed.

End SchemaFacts.

(** ** Chunker *)

Section ChunkerFacts.
Import Chunker.

Lemma pieces_concat (sep : Separator) (prev : option ascii) (t : text) :
  concat (pieces sep prev t) = t.
Proof.
  revert prev. induction t as [|c t IH]; intros prev; cbn; [reflexivity|].
  destruct (closes sep prev c); cbn.
  - now rewrite IH.
  - specialize (IH (Some c)).
    destruct (pieces sep (Some c) t) as [|p ps]; cbn in *.
    + now rewrite <- IH.
    + now rewrite <- IH.
Qed.

Lemma cutEvery_concat (n turns : nat) (t : text) :
  1 <= n -> length t <= turns -> concat (cutEvery turns n t) = t.
Proof.
  intros Hn. revert t. induction turns as [|turns IH]; intros t Hlen.
  - destruct t; [reflexivity | cbn in Hlen; lia].
  - destruct t as [|c t]; [reflexivity|].
    cbn [cutEvery concat]. rewrite IH.
    + apply firstn_skipn.
    + rewrite length_skipn. cbn [length] in *. lia.
Qed.

Lemma segments_concat (seps : list Separator) (n : nat) (t : text) :
  1 <= n -> concat (segments seps n t) = t.
Proof.
  intros Hn. revert t. induction seps as [|sep rest IH]; intros t; cbn [segments].
  - destruct (length t <=? n); [apply app_nil_r|].
    unfold hardCut. now apply cutEvery_concat.
  - destruct (length t <=? n); [apply app_nil_r|].
    unfold splitAt.
    rewrite <- (pieces_concat sep None t) at 2.
    induction (pieces sep None t) as [|p ps IHp]; cbn; [reflexivity|].
    now rewrite concat_app, IH, IHp.
Qed.




(** Every piece fits the room it was cut for. *)
Lemma cutEvery_fits (n turns : nat) (t : text) :
  Forall (fun s => length s <= n) (cutEvery turns n t).
Proof.
  revert t. induction turns as [|turns IH]; intros t; cbn; [constructor|].
  destruct t as [|c t]; constructor; [apply firstn_le_length | apply IH].
Qed.

Lemma segments_fit (seps : list Separator) (n : nat) (t : text) :
  Forall (fun s => length s <= n) (segments seps n t).
Proof.
  revert t. induction seps as [|sep rest IH]; intros t; cbn [segments];
    destruct (length t <=? n) eqn:E;
    try (constructor; [apply Nat.leb_le, E | constructor]).
  - apply cutEvery_fits.
  - apply Forall_flat_map, Forall_forall. intros p _. apply IH.
Qed.

(** The first merged segment fits [room], the others [later]. *)
Lemma mergeInto_fits (later : nat) (segs : list text) (room : nat) (cur : text) :
  later <= room -> length cur <= room ->
  Forall (fun s => length s <= later) segs ->
  exists c more,
    mergeInto room later cur segs = c :: more /\
    length c <= room /\ Forall (fun s => length s <= later) more.
Proof.
  revert room cur. induction segs as [|s segs IH]; intros room cur Hroom Hcur Hsegs;
    cbn [mergeInto].
  - exists cur, []. repeat split; [exact Hcur | constructor].
  - inversion Hsegs as [|? ? Hs Hrest]; subst.
    destruct (length cur + length s <=? room) eqn:E.
    + apply IH; [exact Hroom | | exact Hrest].
      rewrite length_app. apply Nat.leb_le, E.
    + destruct (IH later s (le_n later) Hs Hrest) as (c & more & -> & Hc & Hmore).
      exists cur, (c :: more). repeat split; [exact Hcur|].
      constructor; assumption.
Qed.

(** A first segment that is followed by another has no room left for a
    piece of [later] characters. *)
Lemma mergeInto_first_full (later room : nat) (segs : list text) (cur c c' : text)
      (more : list text) :
  Forall (fun s => length s <= later) segs ->
  mergeInto room later cur segs = c :: c' :: more ->
  room < length c + later.
Proof.
  revert cur. induction segs as [|s segs IH]; intros cur Hsegs; cbn [mergeInto].
  - discriminate.
  - inversion Hsegs as [|? ? Hs Hrest]; subst.
    destruct (length cur + length s <=? room) eqn:E.
    + apply IH, Hrest.
    + intros H. injection H as <- _. apply Nat.leb_gt in E. lia.
Qed.

Lemma trailing_length (n : nat) (t : text) :
  length (trailing n t) = Nat.min n (length t).
Proof. unfold trailing. rewrite length_skipn. lia. Qed.


Lemma lead_overlap (n : nat) (prev s : text) :
  n <= length prev -> firstn n (trailing n prev ++ s) = trailing n prev.
Proof.
  intros H. rewrite firstn_app, trailing_length, Nat.min_l, Nat.sub_diag by exact H.
  rewrite firstn_all2 by (rewrite trailing_length; lia).
  cbn. apply app_nil_r.
Qed.


Lemma overlapFrom_fits (n later : nat) (segs : list text) (prev : text) :
  Forall (fun s => length s <= later) segs ->
  Forall (fun c => length c <= n + later) (overlapFrom n prev segs).
Proof.
  revert prev. induction segs as [|s segs IH]; intros prev Hsegs; cbn [overlapFrom];
    [constructor|].
  inversion Hsegs as [|? ? Hs Hrest]; subst.
  constructor; [|apply IH, Hrest].
  rewrite length_app, trailing_length. lia.
Qed.

Lemma overlapFrom_shares (n : nat) (segs : list text) (prev : text) :
  n <= length prev -> shares n (prev :: overlapFrom n prev segs).
Proof.
  revert prev. induction segs as [|s segs IH]; intros prev H; cbn [overlapFrom];
    [exact I|].
  split; [apply lead_overlap, H|].
  apply IH. rewrite length_app, trailing_length. lia.
Qed.

Lemma valid_config (chunkSize overlap : Z) :
  (0 <= overlap < chunkSize)%Z ->
  ((0 <=? overlap) && (overlap <? chunkSize))%Z = true /\
  Z.to_nat overlap < Z.to_nat chunkSize.
Proof.
  intros H. split; [|lia].
  apply andb_true_iff. split; [apply Z.leb_le | apply Z.ltb_lt]; lia.
Qed.

(** The remainders of a text: the first fits [chunkSize] and, when another
    follows it, has more than [overlap] characters; the others fit
    [chunkSize - overlap]. *)
Lemma remainders_shape (seps : list Separator) (chunkSize overlap : nat) (t : text) :
  overlap < chunkSize ->
  remainders seps chunkSize overlap t = [] \/
  exists r rest,
    remainders seps chunkSize overlap t = r :: rest /\
    length r <= chunkSize /\
    Forall (fun s => length s <= chunkSize - overlap) rest /\
    (rest <> [] -> overlap < length r).
Proof.
  intros Hcfg. destruct t as [|c t]; [now left|]. right.
  unfold remainders, merge.
  pose proof (segments_fit seps (chunkSize - overlap) (c :: t)) as Hfit.
  destruct (segments seps (chunkSize - overlap) (c :: t)) as [|s segs] eqn:E.
  - assert (Hc : concat (segments seps (chunkSize - overlap) (c :: t)) = c :: t)
      by (apply segments_concat; lia).
    rewrite E in Hc. discriminate Hc.
  - inversion Hfit as [|? ? Hs Hsegs]; subst.
    assert (Hm : exists r rest,
               mergeInto chunkSize (chunkSize - overlap) s segs = r :: rest /\
               length r <= chunkSize /\
               Forall (fun s => length s <= chunkSize - overlap) rest)
      by (apply mergeInto_fits; [lia | lia | exact Hsegs]).
    destruct Hm as (r & rest & Hm & Hr & Hrest).
    exists r, rest. repeat split; [exact Hm | exact Hr | exact Hrest |].
    intros Hne. destruct rest as [|r' rest]; [contradiction|].
    assert (chunkSize < length r + (chunkSize - overlap))
      by (eapply mergeInto_first_full; [exact Hsegs | exact Hm]).
    lia.
Qed.


(** The size bound of 4.1 and the shared overlap: no chunk is longer than
    [chunkSize], and each chunk but the first begins with the trailing
    [overlap] characters of the chunk before it. *)
Lemma split_bounded (t : text) (chunkSize overlap : Z) :
  (0 <= overlap < chunkSize)%Z ->
  exists cs,
    split t chunkSize overlap = Chunks cs /\
    Forall (fun c => length c <= Z.to_nat chunkSize) cs /\
    shares (Z.to_nat overlap) cs.
Proof.
  intros Hcfg. destruct (valid_config Hcfg) as [Hok Hn].
  unfold split. rewrite Hok. eexists. split; [reflexivity|].
  destruct (remainders_shape separators t Hn)
    as [-> | (r & rest & -> & Hr & Hrest & Hlong)];
    [split; [constructor | exact I]|].
  cbn [addOverlap].
  destruct rest as [|r' rest]; [split; [repeat constructor; exact Hr | exact I]|].
  assert (r' :: rest <> []) as Hne by discriminate.
  specialize (Hlong Hne).
  split.
  - constructor; [exact Hr|].
    eapply Forall_impl; [|apply (overlapFrom_fits _ _ Hrest)].
    cbn. intros c Hc. lia.
  - apply overlapFrom_shares. lia.
Qed.

End ChunkerFacts.

(** ** The properties at work on sample data *)

Section CoreWitnesses.
Import Similarity VectorStore Knowledge CoreSamples.
Local Open Scope string_scope.



Lemma insert_idempotent_witness :
  ~ stored policy empty /\
  count (snd (insert true 20 policy (snd (insert true 10 policy empty))))
  = (count empty + 1)%nat.
Proof.
  assert (H : ~ stored policy empty) by (intros E; inversion E).
  split; [exact H|].
  exact (proj1 (proj2 (proj2 (insert_idempotent 10 20 policy empty)) H)).
Defined.

(** A day of operations with two models: six chunks, all of dimension 3 at
    the end. *)
Lemma embedding_length_constant_witness :
  fixedDimension toy /\
  Forall admissible day /\
  map (fun c => length (embedding c)) (rows (store afterDay))
  = [3; 3; 3; 3; 3; 3]%nat /\
  Forall (fun c => length (embedding c) = dimension (model afterDay))
         (rows (store afterDay)).
Proof.
  assert (Hm : fixedDimension toy)
    by (intros t; destruct t; reflexivity).
  assert (Hw : fixedDimension wider)
    by (intros t; destruct t; reflexivity).
  assert (Hops : Forall admissible day)
    by (repeat constructor; exact Hw).
  split; [exact Hm|]. split; [exact Hops|]. split; [reflexivity|].
  apply Forall_forall.
  exact (embedding_length_constant true 16 4 5 Gate.defaults echo "admin" faq Hm Hops).
Defined.


End CoreWitnesses.

(** ** Runs on sample data *)

Section Runs.
Import JS Eff ChatApi ChatBot Samples.

Example trim_spaces :
  trim (of_ascii "  hi there ") = of_ascii "hi there".
Proof. reflexivity. Qed.

(** A confident answer: two new messages, the input cleared, loading off,
    one request sent. *)
Example confident_turn :
  let r := snd (handleSendMessage (world assured) investor asking (begin asking)) in
  map sender (messages (comp r)) = [user; bot] /\
  map text (messages (comp r))
    = [of_ascii "What is the minimum investment?";
       of_ascii "Our minimum investment is $2 million."] /\
  input (comp r) = [] /\ loading (comp r) = false /\
  length (requests (log (net r))) = 1.
Proof. cbv zeta. repeat split; reflexivity. Qed.

(** A hedged answer: the warning comes right after the answer. *)
Example hedged_turn :
  map text (messages (comp (snd (handleSendMessage (world hedged) investor asking
                                   (begin asking)))))
  = [of_ascii "What is the minimum investment?";
     of_ascii "The minimum may be $2 million.";
     lowConfidenceWarning].
Proof. reflexivity. Qed.

(** A server that does not answer the chat request: the user's message and
    the apology. *)
Example failed_turn :
  let down := {| clock := clock (world hedged);
                 server := {| chat := fun _ _ => asleep;
                              health := fun _ => asleep |} |} in
  map text (messages (comp (snd (handleSendMessage down investor asking
                                   (begin asking)))))
  = [of_ascii "What is the minimum investment?"; errorText].
Proof. reflexivity. Qed.

End Runs.

Section ChunkerRuns.
Import Chunker.

(** A short first piece: the first chunk grows to [chunkSize], the later
    ones leave room for the overlap. *)
Example split_short_segment :
  split (ofString "a bbbbb") 5 3
  = Chunks [ofString "a bb"; ofString " bbbb"; ofString "bbbb"].
Proof. reflexivity. Qed.

Example split_alphabet :
  split (ofString "abcdefghijkl") 5 2
  = Chunks [ofString "abc"; ofString "bcdef"; ofString "efghi"; ofString "hijkl"].
Proof. reflexivity. Qed.

Example split_sentences :
  split (ofString "One. Two three. Four") 10 0
  = Chunks [ofString "One. Two "; ofString "three."; ofString " Four"].
Proof. reflexivity. Qed.

Example split_sentences_overlap :
  split (ofString "One. Two three. Four") 10 3
  = Chunks [ofString "One. Two "; ofString "wo three."; ofString "ee. Four"].
Proof. reflexivity. Qed.

Example reassemble_sentences :
  reassemble 3 [ofString "One. Two "; ofString "wo three."; ofString "ee. Four"]
  = ofString "One. Two three. Four".
Proof. reflexivity. Qed.

Example split_empty : split [] defaultChunkSize defaultOverlap = Chunks [].
Proof. reflexivity. Qed.

Example split_overlap_too_large : split (ofString "abc") 5 5 = ConfigError.
Proof. reflexivity. Qed.

End ChunkerRuns.

Section StoreRuns.
Import Similarity VectorStore CoreSamples.
Import PrimFloat.

Example score_east_east : score east east = 1%float.
Proof. reflexivity. Qed.

Example score_east_north : score east [0; 1]%float = 0.5%float.
Proof. reflexivity. Qed.

(** The norm of [[1; 1]] is rounded, and the score with it. *)
Example score_ones : score ones ones = 0x1.fffffffffffffp-1%float.
Proof. reflexivity. Qed.

(** The square of [2^600] overflows: the norm is infinite and the score is
    not a number, so it is not in [[0,1]]. *)
Example score_huge :
  score huge huge = nan /\
  (0 <=? score huge huge)%float = false /\
  (score huge huge <=? 1)%float = false.
Proof. repeat split; reflexivity. Qed.

(** The square of [2^-600] underflows: the norm of a nonzero vector is
    zero. *)
Example score_tiny : nonzero tiny /\ score tiny tiny = 0.5%float.
Proof. split; [left|]; reflexivity. Qed.

(** Three chunks, two of which score alike: the one inserted first leads,
    the lower score comes last. *)
Example query_three :
  map (fun e => id (fst e)) (query east 3 noFilter threeChunks) = [1; 3; 2]%nat /\
  Forall2 Qeq (map snd (query east 3 noFilter threeChunks)) [1; 1; 1 # 2]%Q.
Proof. split; [reflexivity|]. repeat constructor. Qed.

(** The tie is cut in favour of the chunk inserted first. *)
Example query_best :
  map (fun e => id (fst e)) (query east 1 noFilter threeChunks) = [1]%nat.
Proof. reflexivity. Qed.

(** The filter comes before the ranking. *)
Example query_filtered :
  map (fun e => id (fst e))
      (query east 3 {| byDocType := Some faq; bySource := None |} threeChunks)
  = [2]%nat.
Proof. reflexivity. Qed.

(** With dedup on, inserting [policy] again changes nothing. *)
Example insert_again :
  insert true 40 policy threeChunks = (1%nat, threeChunks).
Proof. reflexivity. Qed.

(** The table takes the rows of [mixed], whose embeddings have lengths 2
    and 3. *)
Example mixed_rows :
  Schema.valid (table mixed) = true /\
  map (fun c => length (embedding c)) (rows mixed) = [2; 3]%nat.
Proof. split; reflexivity. Qed.

End StoreRuns.

Section ChatRuns.
Import Similarity VectorStore Knowledge CoreSamples.
Local Open Scope string_scope.

(** An empty store: any question is refused, flagged, and recorded. *)
Example chat_empty_store :
  Gate.response (fst (chat 5 Gate.defaults echo 10 "Who is the CEO?" (start toy)))
    = Gate.refusalMessage /\
  Gate.requires_attention
    (fst (chat 5 Gate.defaults echo 10 "Who is the CEO?" (start toy))) = true /\
  map Gate.userQuery
      (audit (snd (chat 5 Gate.defaults echo 10 "Who is the CEO?" (start toy))))
    = ["Who is the CEO?"].
Proof. repeat split; reflexivity. Qed.

(** One chunk ingested and a question about it: answered from its source,
    with no flag and no record. *)
Example chat_single_chunk :
  Gate.sources (fst (chat 5 Gate.defaults echo 20 "What is the minimum investment?"
                          afterIngest)) = ["policy.pdf"] /\
  Gate.requires_attention
    (fst (chat 5 Gate.defaults echo 20 "What is the minimum investment?"
               afterIngest)) = false /\
  audit (snd (chat 5 Gate.defaults echo 20 "What is the minimum investment?"
                   afterIngest)) = [].
Proof.
  assert (Hr : exists c q,
             retrieve 5 "What is the minimum investment?" afterIngest = [(c, q)] /\
             source c = "policy.pdf" /\ (q == 9007199254740991 # 9007199254740992)%Q).
  { eexists. eexists. split; [reflexivity|]. split; reflexivity. }
  destruct Hr as (c & q & Hr & Hsrc & Hq).
  assert (Hd : Gate.decide Gate.defaults [(c, Q2R q)] = Gate.Answer).
  { apply (decide_cases Gate.defaults (eq_refl [(c, Q2R q)]));
      rewrite (Qreals.Qeq_eqR _ _ Hq); unfold Q2R; cbn; lra. }
  unfold chat, scores. rewrite Hr. cbn [map fst snd].
  unfold Gate.respond. rewrite Hd. cbn. rewrite Hsrc. repeat split.
Qed.

(** The chunks of [afterDay]: the promoted answer, the policy in four
    chunks, the contact line. *)
Example day_contents :
  map content (rows (store afterDay))
  = ["Who is the CEO?Sarah Jenkins."; "Our minimum "; "mum investment ";
     "ent is $2 "; " $2 million."; "Contact us."].
Proof. reflexivity. Qed.

End ChatRuns.

(* ===================================================================== *)
(** * More of the frontend *)
(* ===================================================================== *)

(** ** The base URL *)

Section BaseUrlFacts.
Import JS BaseUrl.

(** X1. [API_BASE_URL] is never the empty string: it is the value of
    [REACT_APP_CHATBOT_API] when there is a [process] whose [env] has a
    non-empty value for it, and ["http://localhost:8001"] in every other
    case, an empty value included. *)
Theorem API_BASE_URL_fallback (process : Process) :
  truthy (API_BASE_URL process) = true /\
  (forall env url, process = Some (Some env) -> env variable = Some url ->
                   url <> [] -> API_BASE_URL process = url) /\
  (forall env, process = Some (Some env) -> env variable = Some [] ->
               API_BASE_URL process = defaultUrl) /\
  (forall env, process = Some (Some env) -> env variable = None ->
               API_BASE_URL process = defaultUrl) /\
  (process = None \/ process = Some None -> API_BASE_URL process = defaultUrl).
Proof.
  unfold API_BASE_URL, configured. split.
  - destruct process as [[env|]|]; try reflexivity.
    destruct (env variable) as [[|c url]|]; reflexivity.
  - repeat split.
    + intros env url -> E Hne. rewrite E.
      destruct url; [contradiction | reflexivity].
    + intros env -> E. now rewrite E.
    + intros env -> E. now rewrite E.
    + intros [-> | ->]; reflexivity.
Qed.

End BaseUrlFacts.

Section BaseUrlWitness.
Import JS BaseUrl MoreSamples.

Lemma API_BASE_URL_fallback_witness :
  API_BASE_URL production = of_ascii "https://chatbot.example.com" /\
  API_BASE_URL (Some None) = defaultUrl.
Proof.
  split.
  - refine (proj1 (proj2 (API_BASE_URL_fallback production)) _ _ eq_refl eq_refl _).
    discriminate.
  - exact (proj2 (proj2 (proj2 (proj2 (API_BASE_URL_fallback (Some None)))))
             (or_intror eq_refl)).
Defined.

End BaseUrlWitness.

(** ** The helpers *)

Section HelperFacts.
Import JS Eff ChatApi Fetching.
Local Open Scope eff_scope.

Variable server : Server.

Ltac open_reply r :=
  let lat := fresh "lat" in
  let out := fresh "out" in
  destruct r as [lat [|[|] ? [?|]]];
  cbn [latency outcome ok body statusText issued log negb].

(** A run of [sendChatMessage], whole. *)
Lemma sendChatMessage_run (userMessage userId : jsstring)
      (history : list HistoryItem) (n : Net) :
  sendChatMessage server userMessage userId history n
  = (verdict None apiError
       (chat server (issued n)
             {| user_message := userMessage; user_id := userId;
                conversation_history := history |}),
     after n 1
       (Fetch (PostChat {| user_message := userMessage; user_id := userId;
                           conversation_history := history |}) None ::
        complaint (verdict None apiError
          (chat server (issued n)
                {| user_message := userMessage; user_id := userId;
                   conversation_history := history |})))).
Proof.
  unfold sendChatMessage, try_catch, bind, fetch, settle, json, throw, ret,
    console, emit, modify, verdict, complaint, after, apiError.
  open_reply (chat server (issued n)
                {| user_message := userMessage; user_id := userId;
                   conversation_history := history |});
    rewrite <- ?app_assoc; reflexivity.
Qed.

(** X2. [sendChatMessage] sends one [POST /chat] request with the message,
    the user id and the history in its body, and no second one whatever
    comes back. It waits for the reply however long that takes; it returns
    the parsed body of an OK reply, and throws otherwise, after one
    [console.error]: on a status that is not OK an [Error] whose message is
    ["API Error: "] followed by the status text, even if the body parses. *)
Theorem sendChatMessage_single_request
        (userMessage userId : jsstring) (history : list HistoryItem) (n : Net) :
  let req := {| user_message := userMessage; user_id := userId;
                conversation_history := history |} in
  let run := sendChatMessage server userMessage userId history n in
  ChatBot.requests (log (snd run))
    = ChatBot.requests (log n) ++ [Fetch (PostChat req) None] /\
  issued (snd run) = S (issued n) /\
  (forall v, fst run = Normal v <->
             answer None (chat server (issued n) req) = Some v) /\
  (forall st js,
      outcome (chat server (issued n) req) = Resolved false st js ->
      fst run = Thrown (ApiError (of_ascii "API Error: " ++ st)) /\
      log (snd run) = log n ++ [Fetch (PostChat req) None; Console LError]).
Proof.
  intros req run. subst run.
  rewrite sendChatMessage_run. fold req. cbn [fst snd after issued log].
  split.
  { unfold ChatBot.requests. rewrite filter_app. cbn [filter].
    destruct (verdict None apiError (chat server (issued n) req)); reflexivity. }
  split; [reflexivity|].
  split.
  - intros v. unfold verdict, answer.
    open_reply (chat server (issued n) req); split; intros H;
      try discriminate H; congruence.
  - intros st js E. unfold verdict. rewrite E. split; reflexivity.
Qed.

End HelperFacts.

Section HelperWitness.
Import JS Eff ChatApi Fetching Samples MoreSamples.

Lemma sendChatMessage_single_request_witness :
  outcome (chat overloaded (issued net0)
                {| user_message := of_ascii "hello"; user_id := investor;
                   conversation_history := [] |})
  = Resolved false (of_ascii "Service Unavailable") None /\
  fst (sendChatMessage overloaded (of_ascii "hello") investor [] net0)
  = Thrown (ApiError (of_ascii "API Error: Service Unavailable")).
Proof.
  split; [reflexivity|].
  exact (proj1 (proj2 (proj2 (proj2
           (sendChatMessage_single_request overloaded (of_ascii "hello")
              investor [] net0)))
           (of_ascii "Service Unavailable") None eq_refl)).
Defined.

End HelperWitness.

(** ** More on the health checks *)

Section MoreHealthFacts.
Import JS Eff ChatApi ChatApi.Js Fetching.
Local Open Scope eff_scope.

Variable server : Server.

Ltac open_health r :=
  let lat := fresh "lat" in
  destruct r as [lat [|[|] ? [?|]]];
  cbn [latency outcome ok body statusText issued log negb];
  try (destruct (N.leb attemptTimeoutMs lat));
  cbn [latency outcome ok body statusText issued log negb].

(** A run of the single-attempt [checkHealth], whole. *)
Lemma single_run (n : Net) :
  Ts.checkHealth server n
  = (verdict None apiDown (health server (issued n)),
     after n 1 (Fetch GetHealth None ::
                complaint (verdict None apiDown (health server (issued n))))).
Proof.
  unfold Ts.checkHealth, try_catch, bind, fetch, settle, json, throw, ret,
    console, emit, modify, verdict, complaint, after, apiDown.
  open_health (health server (issued n)); rewrite <- ?app_assoc; reflexivity.
Qed.

(** One turn of the retry loop, whole. *)
Lemma attempt_run (k : nat) (n : Net) :
  attempt_body server k n
  = match verdict (Some attemptTimeoutMs) apiDown (health server (issued n)) with
    | Normal v => (Normal (Some v), after n 1 [probe])
    | Thrown e =>
        if k <? maxRetries
        then (Normal None, after n 1 [probe; Console LWarn; pause])
        else (Thrown e, after n 1 [probe; Console LWarn; Console LError])
    end.
Proof.
  unfold attempt_body, try_catch, bind, fetch, settle, json, throw, ret,
    console, sleep, emit, modify, verdict, after, apiDown, probe, pause.
  destruct (k <? maxRetries);
    open_health (health server (issued n)); rewrite <- ?app_assoc; reflexivity.
Qed.

(** A run of the retrying [checkHealth], whole. *)
Lemma retrying_run (n : Net) :
  checkHealth server n
  = match probed server n 0 with
    | Normal v => (Normal (Some v), after n 1 [probe])
    | Thrown _ =>
        match probed server n 1 with
        | Normal v =>
            (Normal (Some v), after n 2 [probe; Console LWarn; pause; probe])
        | Thrown _ =>
            match probed server n 2 with
            | Normal v =>
                (Normal (Some v),
                 after n 3 [probe; Console LWarn; pause;
                            probe; Console LWarn; pause; probe])
            | Thrown e =>
                (Thrown e,
                 after n 3 [probe; Console LWarn; pause;
                            probe; Console LWarn; pause;
                            probe; Console LWarn; Console LError])
            end
        end
    end.
Proof.
  unfold checkHealth, probed. cbn [retry_loop maxRetries Nat.leb].
  unfold bind at 1. rewrite attempt_run. cbn [Nat.add].
  destruct (verdict _ _ (health server (issued n))) as [v|e0]; [reflexivity|].
  cbn [Nat.ltb Nat.leb maxRetries]. unfold ret.
  unfold bind at 1. rewrite attempt_run. cbn [after issued log Nat.add].
  destruct (verdict _ _ (health server (S (issued n)))) as [v|e1].
  { unfold after. cbn [issued log]. now rewrite <- app_assoc. }
  cbn [Nat.ltb Nat.leb maxRetries]. unfold after at 1. cbn [issued log].
  unfold bind at 1. rewrite attempt_run. cbn [after issued log Nat.add].
  destruct (verdict _ _ (health server (S (S (issued n))))) as [v|e2].
  { unfold after. cbn [issued log]. now rewrite <- !app_assoc. }
  cbn [Nat.ltb Nat.leb maxRetries].
  unfold after. cbn [issued log]. now rewrite <- !app_assoc.
Qed.

End MoreHealthFacts.

Section HealthOutcomes.
Import JS Eff ChatApi ChatApi.Js Fetching.

Variable server : Server.

Lemma verdict_answer {A} (d : option N) (m : jsstring -> jsstring) (r : Reply A) :
  match verdict d m r with
  | Normal v => answer d r = Some v
  | Thrown _ => answer d r = None
  end.
Proof.
  unfold verdict, answer. destruct r as [lat [|[|] st [v|]]];
    cbn [latency outcome]; destruct d as [ms|]; try reflexivity;
    rewrite N.leb_antisym; destruct (N.ltb lat ms); reflexivity.
Qed.

Lemma probed_unheard (n : Net) (k : nat) :
  heard server n k = None -> exists e, probed server n k = Thrown e.
Proof.
  unfold heard, probed. intros H.
  pose proof (verdict_answer (Some attemptTimeoutMs) apiDown
                (health server (k + issued n))) as V.
  destruct (verdict _ _ _) as [v|e]; [congruence | eauto].
Qed.

Lemma probed_late (n : Net) (k : nat) :
  (attemptTimeoutMs <= latency (health server (k + issued n)))%N ->
  probed server n k = Thrown AbortError.
Proof.
  intros H. unfold probed, verdict.
  now rewrite (proj2 (N.leb_le _ _) H).
Qed.

Lemma probed_in_time (n : Net) (k : nat) :
  (latency (health server (k + issued n)) < attemptTimeoutMs)%N ->
  probed server n k = verdict None apiDown (health server (k + issued n)).
Proof.
  intros H. unfold probed, verdict.
  now rewrite (proj2 (N.leb_gt _ _) H).
Qed.

(** X3. On a server that is healthy but takes 20 seconds or more to
    reply, the single-attempt [checkHealth] waits and returns the parsed
    body after its one request, while the retrying [checkHealth] aborts
    each of its three requests and throws an [AbortError], after two
    15-second waits. *)
Theorem checkHealth_slow_server (n : Net) (v : HealthCheck) :
  (forall k, (attemptTimeoutMs <= latency (health server k))%N) ->
  answer None (health server (issued n)) = Some v ->
  Ts.checkHealth server n = (Normal v, after n 1 [Fetch GetHealth None]) /\
  checkHealth server n
  = (Thrown AbortError,
     after n 3 [probe; Console LWarn; pause;
                probe; Console LWarn; pause;
                probe; Console LWarn; Console LError]).
Proof.
  intros Hlate Hok. split.
  - rewrite single_run.
    pose proof (verdict_answer None apiDown (health server (issued n))) as V.
    destruct (verdict None apiDown (health server (issued n))) as [v'|e];
      [|congruence].
    rewrite Hok in V. injection V as <-. reflexivity.
  - rewrite retrying_run.
    rewrite !probed_late by apply Hlate. reflexivity.
Qed.

(** X4. The retrying [checkHealth] always ends with a parsed body or with
    a throw, never with [undefined]. It makes [k] requests, between one and
    three, each with the 20000 ms deadline, and [k - 1] waits of 15000 ms;
    when it throws it has made all three. *)
Theorem checkHealth_bounded (n : Net) :
  exists k,
    1 <= k <= 3 /\
    issued (snd (checkHealth server n)) = k + issued n /\
    ChatBot.requests (log (snd (checkHealth server n)))
      = ChatBot.requests (log n) ++ repeat probe k /\
    pauses (log (snd (checkHealth server n)))
      = pauses (log n) ++ repeat pause (k - 1) /\
    fst (checkHealth server n) <> Normal None /\
    (forall e, fst (checkHealth server n) = Thrown e -> k = 3).
Proof.
  rewrite retrying_run.
  destruct (probed server n 0) as [v0|e0];
    [exists 1 | destruct (probed server n 1) as [v1|e1];
                [exists 2 | destruct (probed server n 2) as [v2|e2]; exists 3]];
    cbn [fst snd after issued log];
    unfold ChatBot.requests, pauses; rewrite !filter_app;
    (split; [lia|]); (split; [reflexivity|]); (split; [reflexivity|]);
    (split; [reflexivity|]); (split; [discriminate|]);
    intros e H; try discriminate H; reflexivity.
Qed.

(** X5. When all three attempts fail, the error the retrying
    [checkHealth] throws is that of the third attempt alone, whatever went
    wrong in the first two: an [AbortError] when the third reply is not
    there after 20000 ms; else a network error when the request is
    rejected, [Error("API is down")] on a status that is not OK, a syntax
    error on a body that does not parse. *)
Theorem checkHealth_last_error (n : Net) :
  heard server n 0 = None -> heard server n 1 = None ->
  ((attemptTimeoutMs <= latency (health server (2 + issued n)))%N ->
   fst (checkHealth server n) = Thrown AbortError) /\
  ((latency (health server (2 + issued n)) < attemptTimeoutMs)%N ->
   (outcome (health server (2 + issued n)) = Rejected ->
    fst (checkHealth server n) = Thrown NetworkError) /\
   (forall st js,
       outcome (health server (2 + issued n)) = Resolved false st js ->
       fst (checkHealth server n) = Thrown (ApiError (of_ascii "API is down"))) /\
   (forall st,
       outcome (health server (2 + issued n)) = Resolved true st None ->
       fst (checkHealth server n) = Thrown SyntaxError)).
Proof.
  intros H0 H1.
  destruct (probed_unheard _ _ H0) as [e0 E0].
  destruct (probed_unheard _ _ H1) as [e1 E1].
  rewrite retrying_run, E0, E1.
  split.
  - intros Hlate. now rewrite (probed_late _ _ Hlate).
  - intros Hin. rewrite (probed_in_time _ _ Hin). unfold verdict.
    repeat split.
    + intros E. now rewrite E.
    + intros st js E. now rewrite E.
    + intros st E. now rewrite E.
Qed.

End HealthOutcomes.

Section HealthOutcomesWitness.
Import JS Eff ChatApi ChatApi.Js Fetching Samples MoreSamples.

Lemma checkHealth_slow_server_witness :
  (forall k, (attemptTimeoutMs <= latency (health sluggish k))%N) /\
  answer None (health sluggish (issued net0)) = Some healthy /\
  fst (Ts.checkHealth sluggish net0) = Normal healthy /\
  fst (checkHealth sluggish net0) = Thrown AbortError.
Proof.
  assert (Hlate : forall k, (attemptTimeoutMs <= latency (health sluggish k))%N).
  { intros k. cbn. discriminate. }
  split; [exact Hlate|]. split; [reflexivity|].
  destruct (checkHealth_slow_server sluggish net0 Hlate eq_refl) as [T J].
  rewrite T, J. split; reflexivity.
Defined.

Lemma checkHealth_bounded_witness :
  exists k, 1 <= k <= 3 /\ issued (snd (checkHealth (waking hedged) net0)) = k + 0.
Proof.
  destruct (checkHealth_bounded (waking hedged) net0) as (k & Hk & Hi & _).
  exists k. split; [exact Hk | exact Hi].
Defined.

Lemma checkHealth_last_error_witness :
  heard failing net0 0 = None /\ heard failing net0 1 = None /\
  (attemptTimeoutMs <= latency (health failing (2 + issued net0)))%N /\
  fst (checkHealth failing net0) = Thrown AbortError.
Proof.
  assert (Hlate : (attemptTimeoutMs <= latency (health failing (2 + issued net0)))%N)
    by (cbn; discriminate).
  split; [reflexivity|]. split; [reflexivity|]. split; [exact Hlate|].
  exact (proj1 (checkHealth_last_error failing net0 eq_refl eq_refl) Hlate).
Defined.

End HealthOutcomesWitness.

(** ** More on the chat widget *)

Section TurnFacts.
Import JS Eff ChatApi ChatBot Fetching Widget.
Local Open Scope eff_scope.

Variable w : World.
Variable userId : jsstring.

(** A submit that passes the guard, whole. *)
Lemma handleSendMessage_run (snap : ChatState) (r : Runtime) :
  submitRefused snap = false ->
  handleSendMessage w userId snap r
  = (Normal tt,
     {| comp := {| messages := messages (comp r)
                               ++ added w (reads r) (input snap) (sentFrom w userId snap r);
                   input := [];
                   loading := false;
                   isOnline := isOnline (comp r);
                   showChat := showChat (comp r) |};
        defaultPrevented := true;
        reads := readings (sentFrom w userId snap r) + reads r;
        net := after (net r) 1
                 (Fetch (PostChat (chatRequest userId snap)) None ::
                  complaint (sentFrom w userId snap r)
                  ++ complaint (sentFrom w userId snap r)) |}).
Proof.
  intros Hgo. unfold handleSendMessage. rewrite Hgo.
  unfold bind, preventDefault, addUserMessage, setInput, setLoading,
    setMessages, setComp, modify, readClock, try_finally, try_catch, api, bind.
  cbn [comp defaultPrevented reads net fst snd messages input loading isOnline showChat].
  rewrite sendChatMessage_run. unfold sentFrom, chatRequest.
  destruct (verdict None apiError _) as [resp|e];
    unfold addBotMessage, addWarningMessage, addErrorMessage, console, emit,
      setMessages, setComp, modify, readClock, bind, ret, added, readings,
      complaint, after, userMessageAt, botMessageAt, warningAt, apologyAt;
    cbn [comp defaultPrevented reads net fst snd messages input loading
         isOnline showChat issued log];
    [destruct (requires_attention resp)|];
    cbn [comp defaultPrevented reads net fst snd messages input loading
         isOnline showChat issued log app Nat.add];
    rewrite <- ?app_assoc; reflexivity.
Qed.

(** A submit that the guard refuses, whole. *)
Lemma handleSendMessage_refused (snap : ChatState) (r : Runtime) :
  submitRefused snap = true ->
  handleSendMessage w userId snap r
  = (Normal tt,
     {| comp := comp r; defaultPrevented := true; reads := reads r;
        net := net r |}).
Proof.
  intros H. unfold handleSendMessage, bind, preventDefault, modify.
  rewrite H. reflexivity.
Qed.

Lemma added_length (k : nat) (typed : jsstring) (c : Completion ChatResponse) :
  2 <= length (added w k typed c) <= 3.
Proof.
  destruct c as [resp|e]; cbn; [destruct (requires_attention resp)|]; cbn; lia.
Qed.

(** X6. [handleSendMessage] never throws, whatever the server does. It
    calls [e.preventDefault()], leaves [isOnline] and [showChat] alone, and
    only ever appends to the message list, three messages at most: no
    message already shown is changed or dropped. *)
Theorem handleSendMessage_appends (snap : ChatState) (r : Runtime) :
  fst (handleSendMessage w userId snap r) = Normal tt /\
  defaultPrevented (snd (handleSendMessage w userId snap r)) = true /\
  isOnline (comp (snd (handleSendMessage w userId snap r))) = isOnline (comp r) /\
  showChat (comp (snd (handleSendMessage w userId snap r))) = showChat (comp r) /\
  exists new,
    messages (comp (snd (handleSendMessage w userId snap r)))
      = messages (comp r) ++ new /\
    length new <= 3.
Proof.
  destruct (submitRefused snap) eqn:G.
  - rewrite (handleSendMessage_refused _ _ G). cbn.
    repeat (split; [reflexivity|]).
    exists []. split; [now rewrite app_nil_r | cbn; lia].
  - rewrite (handleSendMessage_run _ _ G). cbn [fst snd comp defaultPrevented
      isOnline showChat messages].
    repeat (split; [reflexivity|]).
    eexists. split; [reflexivity|]. apply added_length.
Qed.

(** X7. A submit that passes the guard sends exactly one [POST /chat]
    request. Its body carries the input as typed, white space at the ends
    included, and as history the messages shown before the submit, so not
    the message being sent. Whether the request succeeds or not, the turn
    ends with the input cleared and the loading flag off, and has added the
    user's message followed by one or two bot messages. *)
Theorem handleSendMessage_accepted (snap : ChatState) (r : Runtime) :
  submitRefused snap = false ->
  ChatBot.requests (log (net (snd (handleSendMessage w userId snap r))))
    = ChatBot.requests (log (net r)) ++
      [Fetch (PostChat {| user_message := input snap; user_id := userId;
                          conversation_history :=
                            map historyItem (messages snap) |}) None] /\
  input (comp (snd (handleSendMessage w userId snap r))) = [] /\
  loading (comp (snd (handleSendMessage w userId snap r))) = false /\
  exists u rest,
    messages (comp (snd (handleSendMessage w userId snap r)))
      = messages (comp r) ++ u :: rest /\
    sender u = user /\ text u = input snap /\
    1 <= length rest <= 2 /\
    Forall (fun m => sender m = bot) rest.
Proof.
  intros G. rewrite (handleSendMessage_run _ _ G).
  cbn [fst snd comp net input loading messages after log].
  split.
  { unfold ChatBot.requests. rewrite filter_app. cbn [filter].
    destruct (sentFrom w userId snap r); reflexivity. }
  split; [reflexivity|]. split; [reflexivity|].
  unfold added. destruct (sentFrom w userId snap r) as [resp|e].
  - eexists; eexists. split; [reflexivity|].
    split; [reflexivity|]. split; [reflexivity|].
    destruct (requires_attention resp); cbn; split; try lia;
      repeat constructor.
  - eexists; eexists. split; [reflexivity|].
    split; [reflexivity|]. split; [reflexivity|].
    cbn. split; [lia | repeat constructor].
Qed.

End TurnFacts.

Section TurnOutcomes.
Import JS Eff ChatApi ChatBot Fetching Widget.
Local Open Scope eff_scope.

Variable w : World.
Variable userId : jsstring.

Lemma sentFrom_thrown (snap : ChatState) (r : Runtime) (e : JSError) (n' : Net) :
  sendChatMessage (server w) (input snap) userId
                  (map historyItem (messages snap)) (net r) = (Thrown e, n') ->
  sentFrom w userId snap r = Thrown e.
Proof.
  rewrite sendChatMessage_run. unfold sentFrom, chatRequest.
  intros H. now injection H.
Qed.

Lemma sentFrom_normal (snap : ChatState) (r : Runtime) (resp : ChatResponse) :
  fst (sendChatMessage (server w) (input snap) userId
                       (map historyItem (messages snap)) (net r)) = Normal resp ->
  sentFrom w userId snap r = Normal resp.
Proof.
  rewrite sendChatMessage_run. unfold sentFrom, chatRequest. cbn [fst].
  intros H. exact H.
Qed.

(** X8. When [sendChatMessage] throws (no connection, a status that is not
    OK, a body that does not parse), the turn adds the user's message and
    one bot message, the apology "Sorry, I encountered an error. Please try
    again later.", with no confidence and no sources; the failure is logged
    twice, by the helper and by the handler; the request is not sent again;
    the loading flag is off at the end. *)
Theorem handleSendMessage_failure (snap : ChatState) (r : Runtime)
        (e : JSError) (n' : Net) :
  submitRefused snap = false ->
  sendChatMessage (server w) (input snap) userId
                  (map historyItem (messages snap)) (net r) = (Thrown e, n') ->
  (exists u a,
     messages (comp (snd (handleSendMessage w userId snap r)))
       = messages (comp r) ++ [u; a] /\
     sender u = user /\ text u = input snap /\
     sender a = bot /\ text a = errorText /\
     confidence a = None /\ msg_sources a = None) /\
  log (net (snd (handleSendMessage w userId snap r)))
    = log (net r) ++
      [Fetch (PostChat (chatRequest userId snap)) None;
       Console LError; Console LError] /\
  issued (net (snd (handleSendMessage w userId snap r))) = S (issued (net r)) /\
  loading (comp (snd (handleSendMessage w userId snap r))) = false.
Proof.
  intros G H. rewrite (handleSendMessage_run _ _ _ _ G).
  rewrite (sentFrom_thrown _ _ H).
  cbn [fst snd comp net messages loading added complaint after log issued app].
  split; [|repeat split].
  eexists; eexists. split; [reflexivity|]. repeat split.
Qed.

(** X9. If the clock does not run backwards, the ids of the messages one
    turn adds grow strictly in the order the messages are added, so the
    React keys of one turn are distinct. *)
Theorem turn_ids_increase (snap : ChatState) (r : Runtime) :
  monotone (clock w) ->
  submitRefused snap = false ->
  exists new,
    messages (comp (snd (handleSendMessage w userId snap r)))
      = messages (comp r) ++ new /\
    StronglySorted Z.lt (map id new) /\
    NoDup (map id new).
Proof.
  intros Hm G. rewrite (handleSendMessage_run _ _ _ _ G).
  cbn [fst snd comp messages].
  eexists. split; [reflexivity|].
  assert (Hs : StronglySorted Z.lt
                 (map id (added w (reads r) (input snap) (sentFrom w userId snap r)))).
  { pose proof (Hm (reads r) (2 + reads r) ltac:(lia)) as H02.
    pose proof (Hm (2 + reads r) (4 + reads r) ltac:(lia)) as H24.
    unfold added.
    destruct (sentFrom w userId snap r) as [resp|e];
      [destruct (requires_attention resp)|];
      cbn [map id userMessageAt botMessageAt warningAt apologyAt];
      repeat (constructor; [|repeat (constructor; try lia)]);
      constructor. }
  split; [exact Hs|].
  clear -Hs. induction Hs as [|a l _ IH Hall]; constructor; [|exact IH].
  intros Hin. rewrite Forall_forall in Hall. specialize (Hall a Hin). lia.
Qed.

End TurnOutcomes.

Section Conversation.
Import JS Eff ChatApi ChatBot Fetching Widget.
Local Open Scope eff_scope.

Variable w : World.
Variable userId : jsstring.

Lemma accepted_online (c : ChatState) :
  submitRefused c = false -> isOnline c = true /\ truthy (trim (input c)) = true.
Proof.
  unfold submitRefused. intros H. apply orb_false_iff in H.
  destruct H as [H1 H2]. apply negb_false_iff in H1, H2. now split.
Qed.

Lemma requests_app (l m : list Event) :
  ChatBot.requests (l ++ m) = ChatBot.requests l ++ ChatBot.requests m.
Proof. apply filter_app. Qed.

Lemma requests_complaint {A} (c : Completion A) :
  ChatBot.requests (complaint c) = [].
Proof. destruct c; reflexivity. Qed.

(** X10. The low-confidence warning goes back to the server: after a turn
    that was answered with [requires_attention], the next submit sends as
    history the earlier messages, the question, the answer, and the
    warning text as one more assistant turn. *)
Theorem follow_up_history (r : Runtime) (resp : ChatResponse) (v : jsstring) :
  submitRefused (comp r) = false ->
  fst (sendChatMessage (server w) (input (comp r)) userId
                       (map historyItem (messages (comp r))) (net r)) = Normal resp ->
  requires_attention resp = true ->
  truthy (trim v) = true ->
  ChatBot.requests
    (log (net (snd (session w userId [Submitted; Typed v; Submitted] r))))
  = ChatBot.requests (log (net r)) ++
    [Fetch (PostChat (chatRequest userId (comp r))) None;
     Fetch (PostChat
              {| user_message := v; user_id := userId;
                 conversation_history :=
                   map historyItem (messages (comp r)) ++
                   [{| role := of_ascii "user"; content := input (comp r) |};
                    {| role := of_ascii "assistant"; content := response resp |};
                    {| role := of_ascii "assistant";
                       content := lowConfidenceWarning |}] |}) None].
Proof.
  intros G Hsent Hflag Hv.
  destruct (accepted_online _ G) as [Hon _].
  apply sentFrom_normal in Hsent.
  cbn [session act]. unfold bind at 1.
  rewrite (handleSendMessage_run _ _ _ _ G), Hsent.
  unfold added. rewrite Hflag.
  unfold bind at 1. unfold setInput, setComp, modify.
  cbn [comp defaultPrevented reads net messages input loading isOnline showChat].
  unfold bind at 1.
  match goal with
  | |- context [handleSendMessage w userId ?c ?r2] =>
      assert (G2 : submitRefused c = false)
        by (unfold submitRefused;
            cbn [comp defaultPrevented reads net messages input loading
                 isOnline showChat fst snd];
            now rewrite Hv, Hon);
      rewrite (handleSendMessage_run w userId c r2 G2)
  end.
  unfold ret. cbn [fst snd net after log comp].
  rewrite !requests_app. cbn [complaint app].
  unfold chatRequest at 2.
  cbn [messages input ChatBot.requests filter].
  rewrite !requests_app, !requests_complaint.
  cbn [ChatBot.requests filter app].
  rewrite map_app. cbn [map historyItem sender text userMessageAt botMessageAt warningAt].
  rewrite <- app_assoc. reflexivity.
Qed.

End Conversation.

(** ** Mounting, rendering, and a session *)

Section MountFacts.
Import JS Eff ChatApi ChatBot Fetching Widget.
Local Open Scope eff_scope.

(** The effect on mount, whole. *)
Lemma checkOnMount_run {A} (check : M Net A) (r : Runtime) :
  checkOnMount check r
  = (Normal tt,
     {| comp := {| messages := messages (comp r); input := input (comp r);
                   loading := loading (comp r);
                   isOnline := match fst (check (net r)) with
                               | Normal _ => true
                               | Thrown _ => false
                               end;
                   showChat := showChat (comp r) |};
        defaultPrevented := defaultPrevented r;
        reads := reads r;
        net := snd (check (net r)) |}).
Proof.
  unfold checkOnMount, try_catch, bind, api, setIsOnline, setComp, modify.
  destruct (check (net r)) as [[v|e] n']; reflexivity.
Qed.

Lemma heard_none_iff (server : Server) (n : Net) (k : nat) :
  Js.heard server n k = None <-> exists e, probed server n k = Thrown e.
Proof.
  split; [apply probed_unheard|].
  intros [e E]. unfold Js.heard, probed in *.
  pose proof (verdict_answer (Some Js.attemptTimeoutMs) apiDown
                (health server (k + issued n))) as V.
  now rewrite E in V.
Qed.

(** X11. The health check on mount decides [isOnline] and touches nothing
    else of the component state. With the retrying [checkHealth] the
    widget goes offline exactly when all three attempts fail; with the
    single-attempt one, exactly when its one request fails. *)
Theorem checkOnMount_online (server : Server) (r : Runtime) :
  (isOnline (comp (snd (checkOnMount (Js.checkHealth server) r))) = false <->
   Js.heard server (net r) 0 = None /\ Js.heard server (net r) 1 = None /\
   Js.heard server (net r) 2 = None) /\
  (isOnline (comp (snd (checkOnMount (Ts.checkHealth server) r))) = false <->
   answer None (health server (issued (net r))) = None) /\
  (forall A (check : M Net A),
      fst (checkOnMount check r) = Normal tt /\
      messages (comp (snd (checkOnMount check r))) = messages (comp r) /\
      input (comp (snd (checkOnMount check r))) = input (comp r) /\
      loading (comp (snd (checkOnMount check r))) = loading (comp r) /\
      showChat (comp (snd (checkOnMount check r))) = showChat (comp r)).
Proof.
  split; [|split].
  - rewrite checkOnMount_run. cbn [snd comp isOnline].
    rewrite retrying_run, !heard_none_iff.
    destruct (probed server (net r) 0) as [v0|e0]; cbn [fst].
    { split; [discriminate|]. intros [[e E] _]. discriminate E. }
    destruct (probed server (net r) 1) as [v1|e1]; cbn [fst].
    { split; [discriminate|]. intros (_ & [e E] & _). discriminate E. }
    destruct (probed server (net r) 2) as [v2|e2]; cbn [fst].
    { split; [discriminate|]. intros (_ & _ & [e E]). discriminate E. }
    split; [|reflexivity]. intros _. repeat split; eexists; reflexivity.
  - rewrite checkOnMount_run. cbn [snd comp isOnline].
    rewrite single_run. cbn [fst].
    pose proof (verdict_answer None apiDown (health server (issued (net r)))) as V.
    destruct (verdict None apiDown (health server (issued (net r)))) as [v|e].
    + split; [discriminate | congruence].
    + split; [intros _; exact V | reflexivity].
  - intros A check. rewrite checkOnMount_run. repeat split.
Qed.

End MountFacts.

Section SessionFacts.
Import JS Eff ChatApi ChatBot Fetching Widget.
Local Open Scope eff_scope.

Variable w : World.
Variable userId : jsstring.

Lemma refused_offline (c : ChatState) :
  isOnline c = false -> submitRefused c = true.
Proof. intros H. unfold submitRefused. rewrite H. apply orb_true_r. Qed.

Lemma act_offline (a : Action) (r : Runtime) :
  isOnline (comp r) = false ->
  fst (act w userId a r) = Normal tt /\
  isOnline (comp (snd (act w userId a r))) = false /\
  messages (comp (snd (act w userId a r))) = messages (comp r) /\
  loading (comp (snd (act w userId a r))) = loading (comp r) /\
  net (snd (act w userId a r)) = net r.
Proof.
  intros Hoff. destruct a; cbn [act].
  - unfold setInput, setComp, modify. cbn. repeat split. exact Hoff.
  - rewrite (handleSendMessage_refused w userId _ r (refused_offline _ Hoff)).
    cbn. repeat split. exact Hoff.
  - unfold setShowChat, setComp, modify. cbn. repeat split. exact Hoff.
  - unfold setShowChat, setComp, modify. cbn. repeat split. exact Hoff.
Qed.

(** X12. A widget that is offline stays offline: whatever is typed,
    submitted, opened or closed from then on, no request is sent, no
    message is added, [isOnline] stays [false], and the component keeps
    drawing the offline notice. *)
Theorem offline_is_final (acts : list Action) (r : Runtime) :
  isOnline (comp r) = false ->
  fst (session w userId acts r) = Normal tt /\
  isOnline (comp (snd (session w userId acts r))) = false /\
  messages (comp (snd (session w userId acts r))) = messages (comp r) /\
  loading (comp (snd (session w userId acts r))) = loading (comp r) /\
  net (snd (session w userId acts r)) = net r /\
  render (comp (snd (session w userId acts r))) = OfflineNotice.
Proof.
  revert r. induction acts as [|a acts IH]; intros r Hoff.
  - cbn. unfold render. rewrite Hoff. repeat split.
  - cbn [session]. unfold bind.
    destruct (act_offline a r Hoff) as (Hn & Ho & Hm & Hl & Hnet).
    destruct (act w userId a r) as [c r1]. cbn [fst snd] in *. subst c.
    destruct (IH r1 Ho) as (I1 & I2 & I3 & I4 & I5 & I6).
    rewrite I3, I4, I5, Hm, Hl, Hnet. repeat split; assumption.
Qed.

(** X13. The chat window is drawn only while the widget is online and
    open, and its Send button is enabled only when the handler will accept
    the submit: nothing is loading and the input is not blank. A submit
    from an enabled button therefore sends one request and adds at least
    two messages. *)
Theorem enabled_send_is_accepted (r : Runtime) (win : Window) :
  render (comp r) = ChatWindow win ->
  isOnline (comp r) = true /\ showChat (comp r) = true /\
  (sendDisabled win = false ->
   loading (comp r) = false /\
   submitRefused (comp r) = false /\
   issued (net (snd (act w userId Submitted r))) = S (issued (net r)) /\
   length (messages (comp r)) + 2
     <= length (messages (comp (snd (act w userId Submitted r))))).
Proof.
  unfold render.
  destruct (isOnline (comp r)) eqn:Hon; cbn [negb]; [|discriminate].
  destruct (showChat (comp r)) eqn:Hshow; cbn [negb]; [|discriminate].
  intros [= <-]. cbn [sendDisabled].
  split; [reflexivity|]. split; [reflexivity|].
  intros H. apply orb_false_iff in H. destruct H as [Hload Hblank].
  assert (G : submitRefused (comp r) = false)
    by (unfold submitRefused; now rewrite Hblank, Hon).
  split; [exact Hload|]. split; [exact G|].
  cbn [act]. rewrite (handleSendMessage_run w userId _ r G).
  cbn [snd net comp messages after issued]. split; [reflexivity|].
  rewrite length_app.
  pose proof (added_length w (reads r) (input (comp r))
                (sentFrom w userId (comp r) r)). lia.
Qed.

End SessionFacts.

(** ** The admin helpers *)

Section AdminFacts.
Import JS Eff ChatApi Fetching AdminApi.
Local Open Scope eff_scope.

Variable Json : Type.
Variable File : Type.
Variable server : AdminServer Json File.

Ltac run_admin e :=
  unfold try_catch, bind, request, settle, parsed, throw, ret, logError,
    modify, verdict, onceSent;
  destruct (server _ e) as [? [|[|] ? [?|]]];
  cbn [latency outcome ok body statusText sent trail negb];
  rewrite <- ?app_assoc; reflexivity.

(** X14. Each admin helper sends one request to its endpoint and waits
    for the reply without a deadline. It returns the parsed body of an OK
    reply; otherwise it logs one [console.error] and throws: on a status
    that is not OK, an [Error] whose message is the helper's own prefix
    ("Upload failed: ", "Failed to fetch queries: ", "Failed to respond: ",
    "Failed to fetch statistics: ") followed by the status text. An upload
    without a document type is sent as ["faq"]. *)
Theorem admin_helpers_run (n : Wire File) (file : File)
        (docType : option DocType) (queryId response : jsstring) :
  uploadDocument server file docType n
  = (verdict None (fun st => of_ascii "Upload failed: " ++ st)
       (server (sent n)
          (UploadDocument file
             (docTypeName (match docType with Some t => t | None => faq end)))),
     onceSent n
       (UploadDocument file
          (docTypeName (match docType with Some t => t | None => faq end)))
       (verdict None (fun st => of_ascii "Upload failed: " ++ st)
          (server (sent n)
             (UploadDocument file
                (docTypeName (match docType with Some t => t | None => faq end)))))) /\
  getUnansweredQueries server n
  = (verdict None (fun st => of_ascii "Failed to fetch queries: " ++ st)
       (server (sent n) (UnansweredQueries File)),
     onceSent n (UnansweredQueries File)
       (verdict None (fun st => of_ascii "Failed to fetch queries: " ++ st)
          (server (sent n) (UnansweredQueries File)))) /\
  respondToQuery server queryId response n
  = (verdict None (fun st => of_ascii "Failed to respond: " ++ st)
       (server (sent n) (RespondQuery File queryId response)),
     onceSent n (RespondQuery File queryId response)
       (verdict None (fun st => of_ascii "Failed to respond: " ++ st)
          (server (sent n) (RespondQuery File queryId response)))) /\
  getStatistics server n
  = (verdict None (fun st => of_ascii "Failed to fetch statistics: " ++ st)
       (server (sent n) (Statistics File)),
     onceSent n (Statistics File)
       (verdict None (fun st => of_ascii "Failed to fetch statistics: " ++ st)
          (server (sent n) (Statistics File)))) /\
  uploadDocument server file None n = uploadDocument server file (Some faq) n.
Proof.
  repeat split.
  - unfold uploadDocument.
    run_admin (UploadDocument file
                 (docTypeName (match docType with Some t => t | None => faq end))).
  - unfold getUnansweredQueries. run_admin (UnansweredQueries File).
  - unfold respondToQuery. run_admin (RespondQuery File queryId response).
  - unfold getStatistics. run_admin (Statistics File).
Qed.

End AdminFacts.

(** ** The added properties at work on sample data *)

Section MoreWitnesses.
Import JS Eff ChatApi ChatBot Fetching Widget Samples MoreSamples.

Lemma handleSendMessage_accepted_witness :
  submitRefused padded = false /\
  ChatBot.requests
    (log (net (snd (handleSendMessage nightfall investor padded (begin padded)))))
  = [Fetch (PostChat {| user_message := of_ascii "  hello ";
                        user_id := investor;
                        conversation_history := [] |}) None] /\
  loading (comp (snd (handleSendMessage nightfall investor padded (begin padded))))
  = false.
Proof.
  split; [reflexivity|].
  destruct (handleSendMessage_accepted nightfall investor padded (begin padded)
              eq_refl) as (Hreq & _ & Hload & _).
  split; [exact Hreq | exact Hload].
Defined.

Lemma handleSendMessage_failure_witness :
  submitRefused asking = false /\
  fst (sendChatMessage (server nightfall) (input asking) investor
         (map historyItem (messages asking)) (net (begin asking)))
  = Thrown NetworkError /\
  map text (messages (comp (snd (handleSendMessage nightfall investor asking
                                   (begin asking)))))
  = [input asking; errorText].
Proof.
  split; [reflexivity|]. split; [reflexivity|].
  destruct (@handleSendMessage_failure nightfall investor asking (begin asking)
              NetworkError _ eq_refl eq_refl)
    as ((u & a & Hm & _ & Hu & _ & Ha & _) & _).
  rewrite Hm. cbn [map app messages comp begin asking portal].
  now rewrite Hu, Ha.
Defined.

Lemma turn_ids_increase_witness :
  monotone (clock (world hedged)) /\
  submitRefused asking = false /\
  exists new,
    messages (comp (snd (handleSendMessage (world hedged) investor asking
                           (begin asking)))) = new /\
    NoDup (map id new).
Proof.
  assert (Hm : monotone (clock (world hedged))).
  { intros i j Hij. unfold world. cbn [clock]. lia. }
  split; [exact Hm|]. split; [reflexivity|].
  destruct (turn_ids_increase (world hedged) investor asking (begin asking)
              Hm eq_refl)
    as (new & Hnew & _ & Hnd).
  exists new. split; [exact Hnew | exact Hnd].
Defined.

Lemma follow_up_history_witness :
  submitRefused (comp (begin asking)) = false /\
  requires_attention hedged = true /\
  truthy (trim nextQuestion) = true /\
  ChatBot.requests
    (log (net (snd (session (world hedged) investor
                      [Submitted; Typed nextQuestion; Submitted] (begin asking)))))
  = [Fetch (PostChat (chatRequest investor asking)) None;
     Fetch (PostChat
              {| user_message := nextQuestion; user_id := investor;
                 conversation_history :=
                   [{| role := of_ascii "user"; content := input asking |};
                    {| role := of_ascii "assistant"; content := response hedged |};
                    {| role := of_ascii "assistant";
                       content := lowConfidenceWarning |}] |}) None].
Proof.
  split; [reflexivity|]. split; [reflexivity|]. split; [reflexivity|].
  exact (@follow_up_history (world hedged) investor (begin asking) hedged
           nextQuestion eq_refl eq_refl eq_refl eq_refl).
Defined.

Lemma checkOnMount_online_witness :
  Js.heard down net0 0 = None /\ Js.heard down net0 1 = None /\
  Js.heard down net0 2 = None /\
  isOnline (comp (snd (checkOnMount (Js.checkHealth down) (begin initial)))) = false /\
  isOnline (comp (snd (checkOnMount (Js.checkHealth (waking hedged))
                                    (begin initial)))) <> false.
Proof.
  split; [reflexivity|]. split; [reflexivity|]. split; [reflexivity|].
  split.
  - exact (proj2 (proj1 (checkOnMount_online down (begin initial)))
             (conj eq_refl (conj eq_refl eq_refl))).
  - intros H.
    apply (proj1 (proj1 (checkOnMount_online (waking hedged) (begin initial)))) in H.
    destruct H as (_ & _ & H). discriminate H.
Defined.

Lemma offline_is_final_witness :
  isOnline (comp (begin offlinePortal)) = false /\
  net (snd (session nightfall investor
              [Typed nextQuestion; Submitted; Closed; Opened; Submitted]
              (begin offlinePortal))) = net0 /\
  messages (comp (snd (session nightfall investor
              [Typed nextQuestion; Submitted; Closed; Opened; Submitted]
              (begin offlinePortal)))) = [].
Proof.
  split; [reflexivity|].
  destruct (offline_is_final nightfall investor
              [Typed nextQuestion; Submitted; Closed; Opened; Submitted]
              (begin offlinePortal) eq_refl) as (_ & _ & Hm & _ & Hn & _).
  split; [exact Hn | exact Hm].
Defined.

Lemma enabled_send_is_accepted_witness :
  render (comp (begin asking)) = ChatWindow askingWindow /\
  sendDisabled askingWindow = false /\
  issued (net (snd (act (world hedged) investor Submitted (begin asking)))) = 1.
Proof.
  split; [reflexivity|]. split; [reflexivity|].
  destruct (enabled_send_is_accepted (world hedged) investor (begin asking)
              (win := askingWindow) eq_refl) as (_ & _ & H).
  destruct (H eq_refl) as (_ & _ & Hi & _). exact Hi.
Defined.

End MoreWitnesses.

Section MoreRuns.
Import JS Eff ChatApi Fetching AdminApi MoreSamples.

(** An upload that meets a 503. *)
Example upload_refused :
  fst (uploadDocument adminDown tt None {| sent := 0; trail := [] |})
  = Thrown (ApiError (of_ascii "Upload failed: Service Unavailable")) /\
  trail (snd (uploadDocument adminDown tt None {| sent := 0; trail := [] |}))
  = [Requested (UploadDocument tt (of_ascii "faq")); LoggedError unit].
Proof. split; reflexivity. Qed.

End MoreRuns.

(** ** What a refusal tells *)

Section RefusalFacts.
Import JS Eff ChatApi ChatBot Widget.
Local Open Scope R_scope.

Variable Item : Type.
Variable sourceOf : Item -> string.
Variable generate : string -> list Item -> string.



End RefusalFacts.

Section RefusalWitness.
Import JS Eff ChatApi ChatBot Widget Samples CoreSamples MoreSamples.
Local Open Scope string_scope.
Local Open Scope R_scope.



End RefusalWitness.
